(** * Verification of map_generator: text normalisation, the document store
    (utils/data_manager.py) and the viewport calculator (utils/map_utils.py). *)

From Stdlib Require Import String Ascii List Bool ZArith QArith Lia Reals Lra.
Import ListNotations.
Open Scope bool_scope.

(** ** Text normalisation (data_manager.py: clean_text, clean_url, clean_tags)

    Python strings are modelled as ASCII strings; the regular expressions of
    the source are written out as scanners over [list ascii]. *)
Module Text.

Definition ch (n : nat) : ascii := ascii_of_nat n.

Definition sp : ascii := ch 32.
Definition nl : ascii := ch 10.

(** [str.isspace] on ASCII: \t \n \v \f \r, the separators \x1c-\x1f and
    the space.  [str.strip()] and the [\s] class of [re] use this set. *)
Definition is_py_space (c : ascii) : bool :=
  let n := nat_of_ascii c in
  ((9 <=? n) && (n <=? 13)) || ((28 <=? n) && (n <=? 32)).

(** The class [[\t\r\f\v]]. *)
Definition is_tab_class (c : ascii) : bool :=
  let n := nat_of_ascii c in
  (n =? 9) || (n =? 13) || (n =? 12) || (n =? 11).

Fixpoint lstrip (l : list ascii) : list ascii :=
  match l with
  | [] => []
  | c :: r => if is_py_space c then lstrip r else l
  end.

(** [text.strip()] *)
Definition strip (l : list ascii) : list ascii := rev (lstrip (rev (lstrip l))).

(** [re.sub(r' +', ' ', text)] *)
Fixpoint collapse_spaces (prev : bool) (l : list ascii) : list ascii :=
  match l with
  | [] => []
  | c :: r =>
      if Ascii.eqb c sp then
        if prev then collapse_spaces true r else sp :: collapse_spaces true r
      else c :: collapse_spaces false r
  end.

(** [re.sub(r'[\t\r\f\v]+', ' ', text)] *)
Fixpoint tabs_to_space (prev : bool) (l : list ascii) : list ascii :=
  match l with
  | [] => []
  | c :: r =>
      if is_tab_class c then
        if prev then tabs_to_space true r else sp :: tabs_to_space true r
      else c :: tabs_to_space false r
  end.

(** [re.sub(r'\n +', '\n', text)]: the spaces that follow a newline are
    dropped. *)
Fixpoint drop_after_newline (after_nl : bool) (l : list ascii) : list ascii :=
  match l with
  | [] => []
  | c :: r =>
      if Ascii.eqb c sp && after_nl then drop_after_newline true r
      else c :: drop_after_newline (Ascii.eqb c nl) r
  end.

(** [re.sub(r' +\n', '\n', text)]: a run of [pending] spaces is dropped when a
    newline follows it and kept otherwise. *)
Fixpoint drop_before_newline (pending : nat) (l : list ascii) : list ascii :=
  match l with
  | [] => repeat sp pending
  | c :: r =>
      if Ascii.eqb c sp then drop_before_newline (S pending) r
      else if Ascii.eqb c nl then c :: drop_before_newline 0 r
      else repeat sp pending ++ c :: drop_before_newline 0 r
  end.

(** [re.sub(r'\n{3,}', '\n\n', text)]: a run of [run] newlines is kept when
    it is shorter than three and becomes two newlines otherwise. *)
Definition flush_newlines (run : nat) : list ascii :=
  if 3 <=? run then [nl; nl] else repeat nl run.

Fixpoint collapse_newlines (run : nat) (l : list ascii) : list ascii :=
  match l with
  | [] => flush_newlines run
  | c :: r =>
      if Ascii.eqb c nl then collapse_newlines (S run) r
      else flush_newlines run ++ c :: collapse_newlines 0 r
  end.

(** [clean_text] on a [str] argument (every caller passes one; the
    [not text] guard returns [""] for the empty string, which the steps
    below also do). *)
Definition clean_text_l (l : list ascii) : list ascii :=
  let t := strip l in
  let t := collapse_spaces false t in
  let t := tabs_to_space false t in
  let t := drop_after_newline false t in
  let t := drop_before_newline 0 t in
  collapse_newlines 0 t.

Definition clean_text (s : string) : string :=
  string_of_list_ascii (clean_text_l (list_ascii_of_string s)).

Definition is_alpha (c : ascii) : bool :=
  let n := nat_of_ascii c in ((65 <=? n) && (n <=? 90)) || ((97 <=? n) && (n <=? 122)).
Definition is_digit (c : ascii) : bool :=
  let n := nat_of_ascii c in (48 <=? n) && (n <=? 57).
Definition is_alnum (c : ascii) : bool := is_alpha c || is_digit c.
(** The class [[a-zA-Z0-9\-\.]]. *)
Definition is_host (c : ascii) : bool :=
  is_alnum c || Ascii.eqb c "-"%char || Ascii.eqb c "."%char.

Fixpoint has_prefix (p l : list ascii) : bool :=
  match p, l with
  | [], _ => true
  | a :: p', b :: l' => Ascii.eqb a b && has_prefix p' l'
  | _ :: _, [] => false
  end.

Definition lstr (s : string) : list ascii := list_ascii_of_string s.

(** [re.match(r'^https?://', url)] *)
Definition starts_with_scheme (u : list ascii) : bool :=
  has_prefix (lstr "http://") u || has_prefix (lstr "https://") u.

(** The part [[a-zA-Z0-9]\.[a-zA-Z]{2}] of the domain pattern, tried at the
    current position. *)
Definition label_end (l : list ascii) : bool :=
  match l with
  | c1 :: d :: a1 :: a2 :: _ =>
      is_alnum c1 && Ascii.eqb d "."%char && is_alpha a1 && is_alpha a2
  | _ => false
  end.

(** [[a-zA-Z0-9\-\.]*] followed by [label_end]: backtracking over the
    length of the starred part. *)
Fixpoint host_then_label (l : list ascii) : bool :=
  match l with
  | [] => false
  | c :: r => label_end l || (is_host c && host_then_label r)
  end.

(** [re.match(r'^[a-zA-Z0-9][a-zA-Z0-9\-\.]*[a-zA-Z0-9]\.[a-zA-Z]{2,}', url)] *)
Definition domain_prefix (u : list ascii) : bool :=
  match u with
  | c0 :: r => is_alnum c0 && host_then_label r
  | [] => false
  end.

(** [clean_url] on a [str] argument. *)
Definition clean_url (s : string) : string :=
  let u := strip (lstr s) in
  match u with
  | [] => ""%string
  | _ =>
      let u := filter (fun c => negb (is_py_space c)) u in
      if starts_with_scheme u then string_of_list_ascii u
      else if domain_prefix u then ("https://" ++ string_of_list_ascii u)%string
      else if has_prefix (lstr "www.") u then ("https://" ++ string_of_list_ascii u)%string
      else string_of_list_ascii u
  end.

End Text.

(** ** JSON values as Python holds them after [json.loads]

    A [dict] is an association list with distinct keys in insertion order; a
    finite [float] is kept as its exact rational value. *)
Module Json.

Local Open Scope string_scope.

Set Warnings "-register-all".
Inductive value : Type :=
| VNone
| VBool (b : bool)
| VInt (z : Z)
| VFloat (q : Q)
| VStr (s : string)
| VList (l : list value)
| VDict (d : list (string * value)).

Definition dict := list (string * value).

(** [d.get(k)] *)
Fixpoint dict_get (k : string) (d : dict) : option value :=
  match d with
  | [] => None
  | (k', v) :: r => if String.eqb k k' then Some v else dict_get k r
  end.

(** [d.get(k, default)] *)
Definition dict_get_default (k : string) (default : value) (d : dict) : value :=
  match dict_get k d with Some v => v | None => default end.

(** [d[k] = v]: an existing key keeps its place, a new key goes last. *)
Fixpoint dict_set (k : string) (v : value) (d : dict) : dict :=
  match d with
  | [] => [(k, v)]
  | (k', v') :: r => if String.eqb k k' then (k', v) :: r else (k', v') :: dict_set k v r
  end.

(** [bool(v)] *)
Definition py_truthy (v : value) : bool :=
  match v with
  | VNone => false
  | VBool b => b
  | VInt z => negb (Z.eqb z 0)
  | VFloat q => negb (Qeq_bool q 0)
  | VStr s => negb (String.eqb s "")
  | VList l => match l with [] => false | _ => true end
  | VDict d => match d with [] => false | _ => true end
  end.

(** [v == 0] *)
Definition py_eq_zero (v : value) : bool :=
  match v with
  | VBool b => negb b
  | VInt z => Z.eqb z 0
  | VFloat q => Qeq_bool q 0
  | _ => false
  end.

Fixpoint is_substring (k s : string) : bool :=
  String.prefix k s ||
  match s with
  | EmptyString => false
  | String _ r => is_substring k r
  end.

(** [k in v] for a string [k]; [None] is the [TypeError] of a container
    that does not support [in]. *)
Definition py_contains (v : value) (k : string) : option bool :=
  match v with
  | VDict d => Some (match dict_get k d with Some _ => true | None => false end)
  | VList l => Some (existsb (fun x => match x with VStr s => String.eqb s k | _ => false end) l)
  | VStr s => Some (is_substring k s)
  | _ => None
  end.

(** [v[k]] for a string [k]; [None] is the [KeyError] or [TypeError]. *)
Definition py_getitem (v : value) (k : string) : option value :=
  match v with
  | VDict d => dict_get k d
  | _ => None
  end.

(** Python code that may raise: [None] is an exception. *)
Definition bind {A B} (m : option A) (f : A -> option B) : option B :=
  match m with Some a => f a | None => None end.

Fixpoint traverse {A B} (f : A -> option B) (l : list A) : option (list B) :=
  match l with
  | [] => Some []
  | x :: r => bind (f x) (fun y => bind (traverse f r) (fun ys => Some (y :: ys)))
  end.

End Json.

Import Json.
Notation "x <- m ;; k" := (Json.bind m (fun x => k))
  (at level 61, m at next level, right associativity).

(** ** The document store (data_manager.py: DataManager) *)
Module DataManager.

Local Open Scope string_scope.

Section Builtins.

(** [float(s)] on a [str]: a parsed number, or [None] for the
    [ValueError]. *)
Variable float_of_str : string -> option Q.
(** [str(v)] on a value that is not a [str]. *)
Variable repr : value -> string.

(** [str(v)] *)
Definition py_str (v : value) : string :=
  match v with VStr s => s | _ => repr v end.

(** [float(v)]; [None] is the [TypeError] or [ValueError]. *)
Definition py_float (v : value) : option Q :=
  match v with
  | VBool b => Some (if b then 1%Q else 0%Q)
  | VInt z => Some (inject_Z z)
  | VFloat q => Some q
  | VStr s => float_of_str s
  | _ => None
  end.

(** [field in item and item[field]]: [Some (Some v)] when the field is
    present and truthy, [Some None] when the test is false. *)
Definition field_truthy (item : value) (field : string) : option (option value) :=
  b <- py_contains item field ;;
  if b then
    v <- py_getitem item field ;;
    Some (if py_truthy v then Some v else None)
  else Some None.

(** [clean_tags] *)
Definition clean_tags (tags : value) : list string :=
  match tags with
  | VList l =>
      flat_map (fun t => match t with
                         | VStr s => let c := Text.clean_text s in
                                     if String.eqb c "" then [] else [c]
                         | _ => []
                         end) l
  | _ => []
  end.

Definition zero_center : value := VDict [("lat", VInt 0); ("lng", VInt 0)].

(** [_create_empty_json] *)
Definition create_empty_json : value :=
  VDict [("name", VStr ""); ("description", VStr ""); ("origin", VStr "");
         ("filter", VDict [("inclusive", VDict []); ("exclusive", VDict [])]);
         ("data", VList [])].

(** The loop over ["name", "address", "phone", "webName", "intro"]. *)
Fixpoint clean_str_fields (item : value) (fields : list string) (acc : dict) : option dict :=
  match fields with
  | [] => Some acc
  | f :: fs =>
      ov <- field_truthy item f ;;
      let v := match ov with
               | Some x => VStr (Text.clean_text (py_str x))
               | None => VStr ""
               end in
      clean_str_fields item fs (dict_set f v acc)
  end.

(** [_clean_data_item] *)
Definition clean_data_item (item : value) : option dict :=
  acc <- clean_str_fields item ["name"; "address"; "phone"; "webName"; "intro"]%string
                          [("name", VStr "")] ;;
  ow <- field_truthy item "webLink" ;;
  let acc := dict_set "webLink" (match ow with
                                 | Some x => VStr (Text.clean_url (py_str x))
                                 | None => VStr ""
                                 end) acc in
  bt <- py_contains item "tags" ;;
  acc <- (if bt then
            t <- py_getitem item "tags" ;;
            Some (dict_set "tags" (VList (map VStr (clean_tags t))) acc)
          else Some (dict_set "tags" (VList []) acc)) ;;
  bc <- py_contains item "center" ;;
  c <- (if bc then py_getitem item "center" else Some VNone) ;;
  match c with
  | VDict cd =>
      lat <- py_float (dict_get_default "lat" (VInt 0) cd) ;;
      lng <- py_float (dict_get_default "lng" (VInt 0) cd) ;;
      Some (dict_set "center" (VDict [("lat", VFloat lat); ("lng", VFloat lng)]) acc)
  | _ => Some (dict_set "center" zero_center acc)
  end.

(** [_clean_json_structure]: the fields of [_create_empty_json], each
    overwritten when the input provides a usable value. *)
Definition clean_meta (json_data : value) (field : string) : option value :=
  ov <- field_truthy json_data field ;;
  Some (match ov with Some x => VStr (Text.clean_text (py_str x)) | None => VStr "" end).

Definition filter_part (fd : dict) (k : string) : value :=
  match dict_get k fd with Some (VDict x) => VDict x | _ => VDict [] end.

Definition clean_json_structure (json_data : value) : option value :=
  name <- clean_meta json_data "name" ;;
  description <- clean_meta json_data "description" ;;
  origin <- clean_meta json_data "origin" ;;
  bf <- py_contains json_data "filter" ;;
  fv <- (if bf then py_getitem json_data "filter" else Some VNone) ;;
  let filter := match fv with
                | VDict fd => VDict [("inclusive", filter_part fd "inclusive");
                                     ("exclusive", filter_part fd "exclusive")]
                | _ => VDict [("inclusive", VDict []); ("exclusive", VDict [])]
                end in
  bd <- py_contains json_data "data" ;;
  dv <- (if bd then py_getitem json_data "data" else Some VNone) ;;
  data <- (match dv with
           | VList l => items <- traverse clean_data_item l ;; Some (VList (map VDict items))
           | _ => Some (VList [])
           end) ;;
  Some (VDict [("name", name); ("description", description); ("origin", origin);
               ("filter", filter); ("data", data)]).

(** [d[k] = v] on a value; [None] when it is not a dict. *)
Definition py_setitem (v : value) (k : string) (x : value) : option value :=
  match v with VDict d => Some (VDict (dict_set k x d)) | _ => None end.

(** [json.loads(json.dumps(v))] on a JSON value (string keys, distinct keys):
    a fresh object equal to [v]. *)
Definition deep_copy (v : value) : value := v.

(** [st.session_state] as far as DataManager uses it. *)
Record session := mk_session {
  extracted_text : string;
  saved_json : value;
  editing_json : value;
  has_pending_edits : bool
}.

(** [init_session_state] on a fresh session. *)
Definition init_session : session :=
  mk_session "" create_empty_json create_empty_json false.

Definition with_saved (s : session) (v : value) (p : bool) : session :=
  mk_session (extracted_text s) v (editing_json s) p.
Definition with_editing (s : session) (v : value) (p : bool) : session :=
  mk_session (extracted_text s) (saved_json s) v p.

(** The public methods of DataManager that write the session. *)
Inductive op : Type :=
| SetExtractedText (text : string)
| ClearExtractedText
| SetSavedJson (json_data : value)
| ClearSavedJson
| SetEditingJson (json_data : value)
| ClearEditingJson
| StartEditing
| ApplyEdits
| DiscardEdits
| UpdateEditingBasicInfo (name description origin : option string)
| AddEditingDataItem (item : value)
| UpdateEditingDataItem (index : Z) (item : value)
| RemoveEditingDataItem (index : Z)
| UpdateEditingFilters (inclusive exclusive : option dict).

Fixpoint replace_nth {A} (n : nat) (x : A) (l : list A) : list A :=
  match l, n with
  | [], _ => []
  | _ :: r, O => x :: r
  | y :: r, S n' => y :: replace_nth n' x r
  end.

Fixpoint remove_nth {A} (n : nat) (l : list A) : list A :=
  match l, n with
  | [], _ => []
  | _ :: r, O => r
  | y :: r, S n' => y :: remove_nth n' r
  end.

(** [editing_json[k] = clean_text(x)] when the argument is not [None]. *)
Definition set_basic (s : session) (k : string) (ox : option string) : option session :=
  match ox with
  | None => Some s
  | Some x => e <- py_setitem (editing_json s) k (VStr (Text.clean_text x)) ;;
              Some (with_editing s e true)
  end.

Definition set_filter (s : session) (k : string) (ox : option dict) : option session :=
  match ox with
  | None => Some s
  | Some x => f <- py_getitem (editing_json s) "filter" ;;
              f' <- py_setitem f k (VDict x) ;;
              e <- py_setitem (editing_json s) "filter" f' ;;
              Some (with_editing s e true)
  end.

(** One method call; [None] is an exception, after which the session is
    left as it was (every method raises before it writes).  The [data]
    entry of [editing_json] is a list in every session these methods
    produce; on anything else the model raises. *)
Definition exec_op (s : session) (o : op) : option session :=
  match o with
  | SetExtractedText t =>
      Some (mk_session (Text.clean_text t) (saved_json s) (editing_json s) (has_pending_edits s))
  | ClearExtractedText =>
      Some (mk_session "" (saved_json s) (editing_json s) (has_pending_edits s))
  | SetSavedJson j => c <- clean_json_structure j ;; Some (with_saved s c false)
  | ClearSavedJson => Some (with_saved s create_empty_json false)
  | SetEditingJson j => c <- clean_json_structure j ;; Some (with_editing s c true)
  | ClearEditingJson => Some (with_editing s create_empty_json false)
  | StartEditing => Some (with_editing s (deep_copy (saved_json s)) false)
  | ApplyEdits => Some (with_saved s (deep_copy (editing_json s)) false)
  | DiscardEdits => Some (with_editing s (deep_copy (saved_json s)) false)
  | UpdateEditingBasicInfo n d o =>
      s1 <- set_basic s "name" n ;; s2 <- set_basic s1 "description" d ;;
      set_basic s2 "origin" o
  | AddEditingDataItem item =>
      c <- clean_data_item item ;;
      dv <- py_getitem (editing_json s) "data" ;;
      match dv with
      | VList l => e <- py_setitem (editing_json s) "data" (VList (l ++ [VDict c])) ;;
                   Some (with_editing s e true)
      | _ => None
      end
  | UpdateEditingDataItem index item =>
      dv <- py_getitem (editing_json s) "data" ;;
      match dv with
      | VList l =>
          if (0 <=? index)%Z && (index <? Z.of_nat (length l))%Z then
            c <- clean_data_item item ;;
            e <- py_setitem (editing_json s) "data" (VList (replace_nth (Z.to_nat index) (VDict c) l)) ;;
            Some (with_editing s e true)
          else Some s
      | _ => None
      end
  | RemoveEditingDataItem index =>
      dv <- py_getitem (editing_json s) "data" ;;
      match dv with
      | VList l =>
          if (0 <=? index)%Z && (index <? Z.of_nat (length l))%Z then
            e <- py_setitem (editing_json s) "data" (VList (remove_nth (Z.to_nat index) l)) ;;
            Some (with_editing s e true)
          else Some s
      | _ => None
      end
  | UpdateEditingFilters inc exc =>
      s1 <- set_filter s "inclusive" inc ;; set_filter s1 "exclusive" exc
  end.

(** A sequence of calls, stopped by the first exception. *)
Fixpoint run_ops (s : session) (os : list op) : option session :=
  match os with
  | [] => Some s
  | o :: r => s' <- exec_op s o ;; run_ops s' r
  end.

Inductive reachable : session -> Prop :=
| reach_init : reachable init_session
| reach_step s o s' : reachable s -> exec_op s o = Some s' -> reachable s'.

(** [has_saved_json] *)
Definition has_saved_json (s : session) : bool :=
  match saved_json s with
  | VDict d => match dict_get "data" d with Some v => py_truthy v | None => false end
  | _ => false
  end.

(** ** Structural validation (validate_url, validate_json_structure) *)

Fixpoint take_while {A} (p : A -> bool) (l : list A) : list A :=
  match l with [] => [] | x :: r => if p x then x :: take_while p r else [] end.
Fixpoint drop_while {A} (p : A -> bool) (l : list A) : list A :=
  match l with [] => [] | x :: r => if p x then drop_while p r else l end.

Definition not_nl (c : ascii) : bool := negb (Ascii.eqb c Text.nl).

(** [[a-zA-Z0-9]([a-zA-Z0-9\-\.]*[a-zA-Z0-9])?] on a run of host characters. *)
Definition label_ok (a : list ascii) : bool :=
  match a with
  | [] => false
  | c :: _ => Text.is_alnum c && Text.is_alnum (last a c)
  end.

(** The host part [label\.[a-zA-Z]{2,}]: the dot is the last one of the run. *)
Definition host_ok (h : list ascii) : bool :=
  let rh := rev h in
  let rt := take_while (fun c => negb (Ascii.eqb c "."%char)) rh in
  match drop_while (fun c => negb (Ascii.eqb c "."%char)) rh with
  | _ :: ra => forallb Text.is_alpha rt && Nat.leb 2 (length rt) && label_ok (rev ra)
  | [] => false
  end.

(** The optional path group, a [/] or [?] and then [.] repeated, up to [$]:
    [.] does not match a newline and [$] also matches before a final
    newline. *)
Definition rest_ok (r : list ascii) : bool :=
  match r with
  | [] => true
  | c :: t =>
      (Ascii.eqb c Text.nl && match t with [] => true | _ => false end) ||
      ((Ascii.eqb c "/"%char || Ascii.eqb c "?"%char) &&
       forallb not_nl (match rev t with
                       | x :: u => if Ascii.eqb x Text.nl then rev u else t
                       | [] => t
                       end))
  end.

Definition after_scheme (u : list ascii) : option (list ascii) :=
  if Text.has_prefix (Text.lstr "https://") u then Some (skipn 8 u)
  else if Text.has_prefix (Text.lstr "http://") u then Some (skipn 7 u)
  else None.

(** [validate_url(url)[0]]: the whole URL matches the [url_pattern] of the
    source: scheme, host label, dot, a top-level label of two or more
    letters, then the optional path group.  The host characters cannot follow the top-level label, so the host part
    is the longest run of them. *)
Definition validate_url (url : string) : bool :=
  match url with
  | EmptyString => true
  | _ =>
      match after_scheme (Text.lstr url) with
      | None => false
      | Some r => host_ok (take_while Text.is_host r) && rest_ok (drop_while Text.is_host r)
      end
  end.

(** The messages of [validate_json_structure], one per f-string. *)
Inductive verror : Type :=
| EMissingField (field : string)          (* 缺少必需字段：{field} *)
| EFilterNotObject
| EFilterMissingKeys
| EFilterKeysNotObjects
| EDataNotList
| EItemNotObject (i : nat)
| EItemMissingName (i : nat)
| ECenterNotObject (i : nat)
| ELatNotNumber (i : nat)
| ELngNotNumber (i : nat)
| ETagsNotList (i : nat)
| EWebLinkInvalid (i : nat)
| EStructureException.                    (* 结构验证错误：{e} *)

Inductive vresult : Type := Valid | Invalid (e : verror).

(** [isinstance(v, (int, float))]; [bool] is a subclass of [int]. *)
Definition is_number (v : value) : bool :=
  match v with VBool _ | VInt _ | VFloat _ => true | _ => false end.

Fixpoint check_fields (json_data : value) (fields : list string) : option vresult :=
  match fields with
  | [] => Some Valid
  | f :: fs => b <- py_contains json_data f ;;
               if b then check_fields json_data fs else Some (Invalid (EMissingField f))
  end.

Definition check_item (i : nat) (item : value) : vresult :=
  match item with
  | VDict d =>
      match dict_get "name" d with
      | None => Invalid (EItemMissingName i)
      | Some _ =>
          let center_check :=
            match dict_get "center" d with
            | None => Valid
            | Some (VDict c) =>
                match dict_get "lat" c with
                | Some v => if is_number v then Valid else Invalid (ELatNotNumber i)
                | None => Valid
                end
            | Some _ => Invalid (ECenterNotObject i)
            end in
          let center_check :=
            match center_check, dict_get "center" d with
            | Valid, Some (VDict c) =>
                match dict_get "lng" c with
                | Some v => if is_number v then Valid else Invalid (ELngNotNumber i)
                | None => Valid
                end
            | r, _ => r
            end in
          match center_check with
          | Invalid e => Invalid e
          | Valid =>
              match dict_get "tags" d with
              | Some (VList _) | None =>
                  match dict_get "webLink" d with
                  | Some w => if py_truthy w && negb (validate_url (py_str w))
                              then Invalid (EWebLinkInvalid i) else Valid
                  | None => Valid
                  end
              | Some _ => Invalid (ETagsNotList i)
              end
          end
      end
  | _ => Invalid (EItemNotObject i)
  end.

Fixpoint check_items (i : nat) (items : list value) : vresult :=
  match items with
  | [] => Valid
  | it :: r => match check_item i it with Valid => check_items (S i) r | e => e end
  end.

(** [validate_json_structure]; an exception inside the [try] becomes
    [EStructureException]. *)
Definition validate_json_structure (json_data : value) : vresult :=
  match check_fields json_data ["name"; "description"; "origin"; "filter"; "data"] with
  | None => Invalid EStructureException
  | Some (Invalid e) => Invalid e
  | Some Valid =>
      match py_getitem json_data "filter" with
      | None => Invalid EStructureException
      | Some (VDict fd) =>
          match dict_get "inclusive" fd, dict_get "exclusive" fd with
          | Some inc, Some exc =>
              match inc, exc with
              | VDict _, VDict _ =>
                  match py_getitem json_data "data" with
                  | None => Invalid EStructureException
                  | Some (VList items) => check_items 1 items
                  | Some _ => Invalid EDataNotList
                  end
              | _, _ => Invalid EFilterKeysNotObjects
              end
          | _, _ => Invalid EFilterMissingKeys
          end
      | Some _ => Invalid EFilterNotObject
      end
  end.

(** ** Export (_prepare_export_data) *)

(** The re-cleaning of one value of an item, filtering of falsy list
    elements included. *)
Definition export_value (k : string) (v : value) : value :=
  match v with
  | VStr x => VStr (Text.clean_text x)
  | VList l =>
      VList (filter py_truthy
               (if String.eqb k "tags" then map VStr (clean_tags (VList l))
                else map (fun x => match x with VStr t => VStr (Text.clean_text t) | _ => x end) l))
  | _ => v
  end.

(** The loop over [item.items()]. *)
Definition export_fields (remove_empty : bool) (d : dict) : dict :=
  fold_left (fun acc kv =>
               let v := export_value (fst kv) (snd kv) in
               if remove_empty && negb (py_truthy v) then acc else dict_set (fst kv) v acc)
            d [].

(** One iteration of the item loop: [Some (Some e)] appends [e],
    [Some None] skips the item, [None] is an [AttributeError]. *)
Definition export_item (remove_empty remove_zero_coords : bool) (item : value)
  : option (option dict) :=
  match item with
  | VDict d =>
      let ci := export_fields remove_empty d in
      let keep := match ci with [] => Some None | _ => Some (Some ci) end in
      if remove_zero_coords then
        match dict_get_default "center" (VDict []) ci with
        | VDict c =>
            if py_eq_zero (dict_get_default "lat" (VInt 0) c) &&
               py_eq_zero (dict_get_default "lng" (VInt 0) c)
            then Some None else keep
        | _ => None
        end
      else keep
  | _ => None
  end.

Definition keep_some {A} (l : list (option A)) : list A :=
  flat_map (fun o => match o with Some x => [x] | None => [] end) l.

(** [_prepare_export_data]; iterating an empty [str] or [dict] yields
    nothing, any other non-list [data] raises. *)
Definition prepare_export_data (json_data : value) (remove_empty remove_zero_coords : bool)
  : option value :=
  match deep_copy json_data with
  | VDict d =>
      items <- (match dict_get_default "data" (VList []) d with
                | VList l => Some l
                | VStr EmptyString | VDict [] => Some []
                | _ => None
                end) ;;
      outs <- traverse (export_item remove_empty remove_zero_coords) items ;;
      Some (VDict (dict_set "data" (VList (map VDict (keep_some outs))) d))
  | _ => None
  end.

End Builtins.

End DataManager.

(** ** Shape of a normalised document *)
Module Shape.

Local Open Scope string_scope.

Definition key_has (p : value -> bool) (k : string) (d : dict) : bool :=
  match dict_get k d with Some v => p v | None => false end.

Definition is_str (v : value) : bool := match v with VStr _ => true | _ => false end.
Definition is_dict (v : value) : bool := match v with VDict _ => true | _ => false end.
Definition is_num (v : value) : bool :=
  match v with VInt _ | VFloat _ => true | _ => false end.
Definition is_str_list (v : value) : bool :=
  match v with VList l => forallb is_str l | _ => false end.
Definition is_center (v : value) : bool :=
  match v with VDict c => key_has is_num "lat" c && key_has is_num "lng" c | _ => false end.

Definition item_str_keys : list string :=
  ["name"; "address"; "phone"; "webName"; "webLink"; "intro"].

(** Every key of a location item present: strings, the tag list and the
    center with both coordinates. *)
Definition item_wfb (d : dict) : bool :=
  forallb (fun k => key_has is_str k d) item_str_keys &&
  key_has is_str_list "tags" d && key_has is_center "center" d.

Definition is_item (v : value) : bool :=
  match v with VDict d => item_wfb d | _ => false end.

Definition is_filter (v : value) : bool :=
  match v with
  | VDict f => key_has is_dict "inclusive" f && key_has is_dict "exclusive" f
  | _ => false
  end.

Definition is_data (v : value) : bool :=
  match v with VList l => forallb is_item l | _ => false end.

(** The five top-level fields present, [filter] with its two mappings and
    every item of [data] complete. *)
Definition doc_wfb (v : value) : bool :=
  match v with
  | VDict d =>
      key_has is_str "name" d && key_has is_str "description" d &&
      key_has is_str "origin" d && key_has is_filter "filter" d &&
      key_has is_data "data" d
  | _ => false
  end.

Definition session_wfb (s : DataManager.session) : bool :=
  doc_wfb (DataManager.saved_json s) && doc_wfb (DataManager.editing_json s).

(** What [doc_wfb] asks of the value stored under key [k]. *)
Definition doc_field_ok (k : string) (v : value) : bool :=
  if String.eqb k "name" then is_str v
  else if String.eqb k "description" then is_str v
  else if String.eqb k "origin" then is_str v
  else if String.eqb k "filter" then is_filter v
  else if String.eqb k "data" then is_data v
  else true.

(** ** Reference readings of the specification *)

(** The first of [fs] that is not a key of [d]. *)
Fixpoint first_missing (d : dict) (fs : list string) : string :=
  match fs with
  | [] => "data"
  | f :: r => match dict_get f d with None => f | Some _ => first_missing d r end
  end.

(** The exported entry of key [k] with value [v]: its cleaned value, or
    [None] when [remove_empty] drops it as empty. *)
Definition exported_entry (re : bool) (k : string) (v : value) : option value :=
  let v' := DataManager.export_value k v in
  if re && negb (py_truthy v') then None else Some v'.

(** [center.get("lat", 0) == 0 and center.get("lng", 0) == 0] on an
    exported item, a missing center reading as [{}]. *)
Definition center_is_zero (e : dict) : bool :=
  match dict_get_default "center" (VDict []) e with
  | VDict c => py_eq_zero (dict_get_default "lat" (VInt 0) c) &&
               py_eq_zero (dict_get_default "lng" (VInt 0) c)
  | _ => false
  end.

(** What the export makes of one source item: every key is kept with its
    cleaned value unless that value is empty; the item is dropped exactly
    when nothing is left or, with [remove_zero_coords], its center is
    (0, 0). *)
Definition export_rel (re rz : bool) (item : value) (o : option dict) : Prop :=
  exists it, item = VDict it /\
    (forall k, dict_get k (DataManager.export_fields re it) =
               match dict_get k it with Some v => exported_entry re k v | None => None end) /\
    (o = None <-> DataManager.export_fields re it = [] \/
                  (rz = true /\ center_is_zero (DataManager.export_fields re it) = true)) /\
    (forall e, o = Some e -> e = DataManager.export_fields re it).

End Shape.

(** ** The viewport calculator (map_utils.py: MapUtils)

    Coordinates and distances are real numbers: the float arithmetic of
    the source is read as exact arithmetic. *)
Module MapUtils.

Local Open Scope R_scope.

(** A point as read by [point.get("center", {}).get("lat", 0)]: a missing
    center or key reads as 0. *)
Record point := mk_point { lat : R; lng : R }.

Definition Rleb (x y : R) : bool := if Rle_dec x y then true else false.
Definition Rneqb (x y : R) : bool := if Req_dec_T x y then false else true.

(** [math.atan2] *)
Definition atan2 (y x : R) : R :=
  if Rlt_dec 0 x then atan (y / x)
  else if Rlt_dec x 0 then
    (if Rle_dec 0 y then atan (y / x) + PI else atan (y / x) - PI)
  else if Rlt_dec 0 y then PI / 2
  else if Rlt_dec y 0 then - (PI / 2)
  else 0.

Definition radians (x : R) : R := x * PI / 180.

(** [calculate_distance]: the haversine formula with R = 6371000 m. *)
Definition calculate_distance (lat1 lng1 lat2 lng2 : R) : R :=
  let R_earth := 6371000 in
  let lat1_rad := radians lat1 in
  let lat2_rad := radians lat2 in
  let delta_lat := radians (lat2 - lat1) in
  let delta_lng := radians (lng2 - lng1) in
  let a := sin (delta_lat / 2) ^ 2 +
           cos lat1_rad * cos lat2_rad * sin (delta_lng / 2) ^ 2 in
  let c := 2 * atan2 (sqrt a) (sqrt (1 - a)) in
  R_earth * c.

(** [lat != 0 and lng != 0 and -90 <= lat <= 90 and -180 <= lng <= 180] *)
Definition is_valid (p : point) : bool :=
  Rneqb (lat p) 0 && Rneqb (lng p) 0 &&
  Rleb (-90) (lat p) && Rleb (lat p) 90 && Rleb (-180) (lng p) && Rleb (lng p) 180.

Definition valid_points (points : list point) : list point := filter is_valid points.

Definition Rsum (l : list R) : R := fold_left Rplus l 0.

(** [calculate_center] *)
Definition calculate_center (points : list point) : option point :=
  match valid_points points with
  | [] => None
  | vs => Some (mk_point (Rsum (map lat vs) / INR (length vs))
                         (Rsum (map lng vs) / INR (length vs)))
  end.

Record bounds := mk_bounds { min_lat : R; max_lat : R; min_lng : R; max_lng : R }.

(** [calculate_bounds] *)
Definition calculate_bounds (points : list point) : option bounds :=
  match valid_points points with
  | [] => None
  | p :: r => Some (mk_bounds (fold_left Rmin (map lat r) (lat p))
                              (fold_left Rmax (map lat r) (lat p))
                              (fold_left Rmin (map lng r) (lng p))
                              (fold_left Rmax (map lng r) (lng p)))
  end.

(** [ZOOM_DISTANCE_MAP] in the order of [sorted(ZOOM_DISTANCE_MAP.keys())]. *)
Definition ZOOM_DISTANCE_MAP : list (Z * R) :=
  [(3%Z, 1000000); (4%Z, 500000); (5%Z, 200000); (6%Z, 100000); (7%Z, 50000);
   (8%Z, 25000); (9%Z, 20000); (10%Z, 10000); (11%Z, 5000); (12%Z, 2000);
   (13%Z, 1000); (14%Z, 500); (15%Z, 200); (16%Z, 100); (17%Z, 50);
   (18%Z, 20); (19%Z, 10); (20%Z, 5)].

(** The [for zoom_level in sorted(...)] loop with its fall-through. *)
Fixpoint scan_zoom (required_distance : R) (table : list (Z * R)) : Z :=
  match table with
  | [] => 15%Z
  | (zoom_level, d) :: r =>
      if Rle_dec required_distance d then Z.max 10 zoom_level
      else scan_zoom required_distance r
  end.

Definition lat_nonzero (p : point) : bool := Rneqb (lat p) 0.

(** [calculate_zoom_level] *)
Definition calculate_zoom_level (points : list point) (padding_factor : R) : Z :=
  match calculate_bounds points with
  | None => 15%Z
  | Some b =>
      if (length (filter lat_nonzero points) <=? 1)%nat then 16%Z
      else
        let diagonal_distance :=
          calculate_distance (min_lat b) (min_lng b) (max_lat b) (max_lng b) in
        scan_zoom (diagonal_distance * padding_factor) ZOOM_DISTANCE_MAP
  end.

Record map_config := mk_config { center : point; zoom : list Z }.

Definition default_center : point := mk_point 31.230416 121.473701.

(** [calculate_map_config] *)
Definition calculate_map_config (points : list point)
  (initial_zoom_offset min_zoom_offset max_zoom_offset : Z) : map_config :=
  let c := match calculate_center points with Some c => c | None => default_center end in
  let base_zoom := calculate_zoom_level points 1.5 in
  let initial_zoom := Z.max 3 (Z.min 20 (base_zoom + initial_zoom_offset)) in
  let min_zoom := Z.max 3 (Z.min 20 (base_zoom + min_zoom_offset)) in
  let max_zoom := Z.max 3 (Z.min 20 (base_zoom + max_zoom_offset)) in
  mk_config c [initial_zoom; Z.min min_zoom initial_zoom; Z.max max_zoom initial_zoom].

(** The selection rule as the specification words it: among the levels
    whose distance capacity is at least the required distance, the one of
    smallest capacity, floored at level 10 ([None] when no level fits). *)
Fixpoint zoom_by_spec_rev (required_distance : R) (rev_table : list (Z * R)) : option Z :=
  match rev_table with
  | [] => None
  | (z, d) :: r =>
      if Rle_dec required_distance d then Some (Z.max 10 z)
      else zoom_by_spec_rev required_distance r
  end.

Definition zoom_by_spec (required_distance : R) : option Z :=
  zoom_by_spec_rev required_distance (rev ZOOM_DISTANCE_MAP).

End MapUtils.

(** ** Concrete inputs used by the statements below *)
Module Inputs.

Import MapUtils.
Local Open Scope R_scope.

Definition p_a : point := mk_point 30 120.
(** A point with a latitude but no longitude: not valid, yet counted by
    the [lat != 0] filter of [calculate_zoom_level]. *)
Definition p_lng0 : point := mk_point 30 0.
(** Points due north of [p_a] at 100 km and at 100 m. *)
Definition p_100km : point := mk_point (30 + 100000 * 180 / (PI * 6371000)) 120.
Definition p_100m : point := mk_point (30 + 100 * 180 / (PI * 6371000)) 120.

End Inputs.

(** ** Concrete documents *)
Module DocInputs.

Import DataManager.
Local Open Scope string_scope.

(** Builtins for evaluation: no string parses as a float, and [str] of a
    non-string is a fixed text. *)
Definition f0 (s : string) : option Q := None.
Definition r0 (v : value) : string := "?".

Definition doc1 : value :=
  VDict [("name", VStr " Map "); ("origin", VStr "web");
         ("data", VList [VDict [("name", VStr "a"); ("phone", VStr "");
                                ("center", VDict [("lat", VInt 95); ("lng", VInt 10)])]])].

(** The session after [set_saved_json(doc1)]. *)
Definition session1 : session :=
  match exec_op f0 r0 init_session (SetSavedJson doc1) with Some s => s | None => init_session end.

(** An item whose latitude is out of range. *)
Definition item95 : value :=
  VDict [("name", VStr "a"); ("center", VDict [("lat", VInt 95); ("lng", VInt 10)])].
Definition item95_clean : dict :=
  match clean_data_item f0 r0 item95 with Some d => d | None => [] end.

(** ["a \tb"] *)
Definition tab_str : string := "a " ++ String (ascii_of_nat 9) "b".

(** A document with an empty phone and an item at (0, 0). *)
Definition doc9 : dict :=
  [("name", VStr "Map"); ("origin", VStr "web");
   ("data", VList [VDict [("name", VStr "A"); ("phone", VStr "");
                          ("center", VDict [("lat", VFloat 30); ("lng", VFloat 120)])];
                   VDict [("name", VStr "B");
                          ("center", VDict [("lat", VFloat 0); ("lng", VFloat 0)])]])].
Definition items9 : list value :=
  match dict_get "data" doc9 with Some (VList l) => l | _ => [] end.
Definition out9 : value :=
  match prepare_export_data (VDict doc9) true true with Some v => v | None => VNone end.

End DocInputs.

(** ** The other methods of DataManager *)
Module DataManagerMore.

Import DataManager.
Local Open Scope string_scope.

Section Builtins.

Variable float_of_str : string -> option Q.
Variable repr : value -> string.

(** [has_extracted_text]: [bool(extracted_text.strip())] *)
Definition has_extracted_text (s : session) : bool :=
  match Text.strip (Text.lstr (extracted_text s)) with [] => false | _ => true end.

(** [st.session_state.editing_json if use_editing else st.session_state.saved_json] *)
Definition tier (s : session) (use_editing : bool) : value :=
  if use_editing then editing_json s else saved_json s.

(** [len(v)]; [None] is the [TypeError]. *)
Definition py_len (v : value) : option nat :=
  match v with
  | VStr x => Some (String.length x)
  | VList l => Some (length l)
  | VDict d => Some (length d)
  | _ => None
  end.

(** [update_coordinates]: the item is changed in place, inside the list
    held by the chosen tier. *)
Definition update_coordinates (s : session) (index : Z) (lat lng : Q) (use_editing : bool)
  : option session :=
  match tier s use_editing with
  | VDict d =>
      let data_items := dict_get_default "data" (VList []) d in
      n <- py_len data_items ;;
      if (0 <=? index)%Z && (index <? Z.of_nat n)%Z then
        match data_items with
        | VList l =>
            match nth_error l (Z.to_nat index) with
            | Some (VDict it) =>
                let c := VDict [("lat", VFloat lat); ("lng", VFloat lng)] in
                let l' := replace_nth (Z.to_nat index) (VDict (dict_set "center" c it)) l in
                let j := VDict (dict_set "data" (VList l') d) in
                Some (if use_editing then with_editing s j true
                      else with_saved s j (has_pending_edits s))
            | _ => None
            end
        | _ => None
        end
      else Some s
  | _ => None
  end.

(** The methods that write the session beyond those of [op]. *)
Inductive op_more : Type :=
| Core (o : op)
| UpdateCoordinates (index : Z) (lat lng : Q) (use_editing : bool)
| CopySavedToEditing
| SaveEditingToSaved
| ResetAllData
| ResetSavedJson
| ResetEditingJson.

Definition exec_op_more (s : session) (o : op_more) : option session :=
  match o with
  | Core o => exec_op float_of_str repr s o
  | UpdateCoordinates index lat lng use_editing => update_coordinates s index lat lng use_editing
  | CopySavedToEditing => exec_op float_of_str repr s StartEditing
  | SaveEditingToSaved => exec_op float_of_str repr s ApplyEdits
  | ResetAllData => Some (mk_session "" create_empty_json create_empty_json false)
  | ResetSavedJson => Some (with_saved s create_empty_json false)
  | ResetEditingJson => Some (with_editing s create_empty_json false)
  end.

Inductive reachable_more : session -> Prop :=
| more_init : reachable_more init_session
| more_step s o s' : reachable_more s -> exec_op_more s o = Some s' -> reachable_more s'.


(** [x.strip()] tested for truth; [None] is the [AttributeError] of a
    value that is not a [str]. *)
Definition py_strip_truthy (v : value) : option bool :=
  match v with
  | VStr x => Some (match Text.strip (Text.lstr x) with [] => false | _ => true end)
  | _ => None
  end.

(** [item.get(k, "").strip()] *)
Definition str_field_test (k : string) (item : value) : option bool :=
  match item with VDict d => py_strip_truthy (dict_get_default k (VStr "") d) | _ => None end.

(** [item.get("center", {}).get("lat", 0) != 0 and item.get("center", {}).get("lng", 0) != 0] *)
Definition coord_test (item : value) : option bool :=
  match item with
  | VDict d =>
      match dict_get_default "center" (VDict []) d with
      | VDict c => Some (negb (py_eq_zero (dict_get_default "lat" (VInt 0) c)) &&
                         negb (py_eq_zero (dict_get_default "lng" (VInt 0) c)))
      | _ => None
      end
  | _ => None
  end.

(** [item.get("tags", [])] tested for truth. *)
Definition tags_test (item : value) : option bool :=
  match item with VDict d => Some (py_truthy (dict_get_default "tags" (VList []) d)) | _ => None end.

(** [sum(1 for item in data_items if test(item))] *)
Fixpoint count_items (test : value -> option bool) (l : list value) : option nat :=
  match l with
  | [] => Some 0%nat
  | x :: r => b <- test x ;; n <- count_items test r ;; Some (if b then S n else n)
  end.

Record stats := mk_stats {
  total_locations : nat; has_name : nat; has_address : nat; has_coordinates : nat;
  has_phone : nat; has_intro : nat; has_tags : nat; has_weblink : nat
}.

(** [get_data_statistics]; iterating a truthy [data] that is not a list
    yields strings (characters or keys), whose [.get] raises. *)
Definition get_data_statistics (s : session) (use_editing : bool) : option stats :=
  match tier s use_editing with
  | VDict d =>
      let data_items := dict_get_default "data" (VList []) d in
      if negb (py_truthy data_items) then Some (mk_stats 0 0 0 0 0 0 0 0)
      else
        match data_items with
        | VList l =>
            hn <- count_items (str_field_test "name") l ;;
            ha <- count_items (str_field_test "address") l ;;
            hc <- count_items coord_test l ;;
            hp <- count_items (str_field_test "phone") l ;;
            hi <- count_items (str_field_test "intro") l ;;
            ht <- count_items tags_test l ;;
            hw <- count_items (str_field_test "webLink") l ;;
            Some (mk_stats (length l) hn ha hc hp hi ht hw)
        | _ => None
        end
  | _ => None
  end.

(** [export_from_saved_json] *)
Definition export_from_saved_json (s : session) (remove_empty remove_zero_coords : bool)
  : option value :=
  prepare_export_data (saved_json s) remove_empty remove_zero_coords.

End Builtins.

End DataManagerMore.

(** ** Concrete sessions for the statements on the remaining methods *)
Module MoreInputs.

Import DataManager DataManagerMore DocInputs.
Local Open Scope string_scope.

(** The dict of a document value, and the list under its [data] key. *)
Definition dict_of (v : value) : dict := match v with VDict d => d | _ => [] end.
Definition data_of (d : dict) : list value :=
  match dict_get "data" d with Some (VList l) => l | _ => [] end.

(** [session1] after [update_coordinates(0, 31, 121)] on the saved tier. *)
Definition session2 : session :=
  match exec_op_more f0 r0 session1 (UpdateCoordinates 0 31%Q 121%Q false) with
  | Some s => s
  | None => session1
  end.

(** [session1] after [add_editing_data_item(item95)]. *)
Definition session1_added : session :=
  match exec_op f0 r0 session1 (AddEditingDataItem item95) with Some s => s | None => session1 end.

(** The normalised [doc1]. *)
Definition doc1_clean : value :=
  match clean_json_structure f0 r0 doc1 with Some c => c | None => VNone end.

End MoreInputs.

(** ** Facts about normalisation and the session invariant *)
Module ShapeFacts.

Import Shape.
Local Open Scope string_scope.

Lemma dict_get_set k k' v d :
  dict_get k (dict_set k' v d) = if String.eqb k k' then Some v else dict_get k d.
Proof.
  induction d as [|[k0 v0] r IH]; simpl.
  - reflexivity.
  - destruct (String.eqb k' k0) eqn:E1.
    + apply String.eqb_eq in E1; subst k0. simpl.
      destruct (String.eqb k k'); reflexivity.
    + simpl. rewrite IH.
      destruct (String.eqb k k') eqn:E2; [|reflexivity].
      apply String.eqb_eq in E2; subst k'.
      rewrite E1. reflexivity.
Qed.

Lemma key_has_set p k k' v d :
  key_has p k (dict_set k' v d) = if String.eqb k k' then p v else key_has p k d.
Proof.
  unfold key_has. rewrite dict_get_set. destruct (String.eqb k k'); reflexivity.
Qed.

Lemma clean_str_fields_spec rp item fs acc acc' :
  DataManager.clean_str_fields rp item fs acc = Some acc' ->
  forall k, (In k fs -> key_has is_str k acc' = true) /\
            (~ In k fs -> dict_get k acc' = dict_get k acc).
Proof.
  revert acc. induction fs as [|f fs IH]; intros acc H k; simpl in H.
  - injection H as <-. split; [intros []|reflexivity].
  - destruct (DataManager.field_truthy item f) as [ov|] eqn:Ef; simpl in H; [|discriminate].
    specialize (IH _ H k). destruct IH as [IH1 IH2]. split.
    + intros [Heq|Hin]; [subst f|auto].
      destruct (in_dec String.string_dec k fs) as [Hin|Hnin]; [auto|].
      unfold key_has. rewrite (IH2 Hnin), dict_get_set, String.eqb_refl.
      destruct ov; reflexivity.
    + intros Hn. rewrite IH2 by (intro; apply Hn; right; assumption).
      rewrite dict_get_set.
      destruct (String.eqb k f) eqn:E; [|reflexivity].
      apply String.eqb_eq in E. exfalso. apply Hn. left. symmetry. exact E.
Qed.

(** Splits an equation [m = Some _] of the option monad along its binds
    and conditionals; [split_bind] also splits on the values it tests. *)
Ltac split_opt H :=
  repeat (cbv beta iota in H;
          match type of H with
          | context [if ?b then _ else _] => is_var b; destruct b
          | context [match ?m with Some _ => _ | None => _ end] =>
              lazymatch m with
              | ?f ?x => let E := fresh "E" in destruct m eqn:E; [|discriminate H]
              end
          end).

Ltac split_bind H :=
  split_opt H;
  repeat (match type of H with
          | context [match ?c with
                     | VNone => _ | VBool _ => _ | VInt _ => _ | VFloat _ => _
                     | VStr _ => _ | VList _ => _ | VDict _ => _ end] =>
              is_var c; destruct c
          end; split_opt H).

Lemma forallb_is_str_map l : forallb is_str (map VStr l) = true.
Proof. induction l; simpl; auto. Qed.

Lemma clean_data_item_wf fl rp item d :
  DataManager.clean_data_item fl rp item = Some d -> item_wfb d = true.
Proof.
  intro H. unfold DataManager.clean_data_item, Json.bind in H.
  destruct (DataManager.clean_str_fields rp item _ _) as [acc1|] eqn:E1; [|discriminate H].
  pose proof (clean_str_fields_spec _ _ _ _ _ E1) as Hs.
  split_bind H.
  all: injection H as <-; unfold item_wfb; cbn -[key_has dict_set];
       rewrite !key_has_set; cbn -[key_has].
  all: rewrite !(proj1 (Hs _)) by (simpl; tauto); destruct o; simpl; rewrite ?forallb_is_str_map; reflexivity.
Qed.

Lemma clean_meta_str rp j f v : DataManager.clean_meta rp j f = Some v -> is_str v = true.
Proof.
  unfold DataManager.clean_meta, Json.bind.
  destruct (DataManager.field_truthy j f) as [[x|]|]; intro H; inversion H; reflexivity.
Qed.

Lemma traverse_items_wf fl rp l ys :
  traverse (DataManager.clean_data_item fl rp) l = Some ys ->
  forallb is_item (map VDict ys) = true.
Proof.
  revert ys. induction l as [|x l IH]; simpl; intros ys H.
  - injection H as <-. reflexivity.
  - unfold Json.bind in H.
    destruct (DataManager.clean_data_item fl rp x) as [y|] eqn:E1; [|discriminate H].
    destruct (traverse _ l) as [ys'|] eqn:E2; [|discriminate H].
    injection H as <-. simpl. rewrite (clean_data_item_wf _ _ _ _ E1), (IH _ eq_refl).
    reflexivity.
Qed.

Lemma filter_part_dict fd k : is_dict (DataManager.filter_part fd k) = true.
Proof.
  unfold DataManager.filter_part. destruct (dict_get k fd) as [[]|]; reflexivity.
Qed.

Lemma clean_json_structure_wf fl rp j c :
  DataManager.clean_json_structure fl rp j = Some c -> doc_wfb c = true.
Proof.
  intro H. unfold DataManager.clean_json_structure, Json.bind in H.
  destruct (DataManager.clean_meta rp j "name") as [n|] eqn:En; [|discriminate H].
  destruct (DataManager.clean_meta rp j "description") as [de|] eqn:Ed; [|discriminate H].
  destruct (DataManager.clean_meta rp j "origin") as [o|] eqn:Eo; [|discriminate H].
  apply clean_meta_str in En, Ed, Eo.
  split_bind H.
  all: injection H as <-; unfold doc_wfb, key_has; simpl dict_get; cbv iota beta.
  all: rewrite En, Ed, Eo; simpl.
  all: unfold key_has; simpl; rewrite ?filter_part_dict; simpl.
  all: try reflexivity; eapply traverse_items_wf; eassumption.
Qed.

Lemma doc_wfb_set d k v :
  doc_wfb (VDict d) = true -> doc_field_ok k v = true ->
  doc_wfb (VDict (dict_set k v d)) = true.
Proof.
  unfold doc_wfb. intros Hd Hk. rewrite !key_has_set.
  repeat rewrite andb_true_iff in Hd. destruct Hd as [[[[H1 H2] H3] H4] H5].
  rewrite H1, H2, H3, H4, H5.
  unfold doc_field_ok in Hk.
  repeat match goal with
         | |- context [String.eqb ?a ?b] =>
             destruct (String.eqb_spec a b); [try discriminate; subst; simpl in Hk; simpl|]
         end; simpl; rewrite ?Hk; reflexivity.
Qed.

Lemma filter_set fd k x :
  is_filter (VDict fd) = true -> is_filter (VDict (dict_set k (VDict x) fd)) = true.
Proof.
  simpl. intro H. apply andb_true_iff in H. destruct H as [H1 H2].
  rewrite !key_has_set, H1, H2.
  destruct (String.eqb "inclusive" k), (String.eqb "exclusive" k); reflexivity.
Qed.

Lemma forallb_replace_nth {A} (p : A -> bool) n x l :
  forallb p l = true -> p x = true -> forallb p (DataManager.replace_nth n x l) = true.
Proof.
  revert n. induction l as [|y l IH]; intros [|n] H Hx; simpl in *; auto.
  - apply andb_true_iff in H. rewrite Hx. tauto.
  - apply andb_true_iff in H. destruct H as [H1 H2]. rewrite H1, IH; auto.
Qed.

Lemma forallb_remove_nth {A} (p : A -> bool) n l :
  forallb p l = true -> forallb p (DataManager.remove_nth n l) = true.
Proof.
  revert n. induction l as [|y l IH]; intros [|n] H; simpl in *; auto.
  - apply andb_true_iff in H. tauto.
  - apply andb_true_iff in H. destruct H as [H1 H2]. rewrite H1, IH; auto.
Qed.

Lemma doc_wfb_dict v : doc_wfb v = true -> exists d, v = VDict d.
Proof. destruct v; try discriminate. eauto. Qed.

Lemma doc_get_data d :
  doc_wfb (VDict d) = true -> exists l, dict_get "data" d = Some (VList l) /\ forallb is_item l = true.
Proof.
  simpl. unfold key_has at 5. intro H. repeat rewrite andb_true_iff in H.
  destruct H as [_ H]. destruct (dict_get "data" d) as [[]|]; try discriminate. eauto.
Qed.

Lemma doc_get_filter d :
  doc_wfb (VDict d) = true -> exists fd, dict_get "filter" d = Some (VDict fd) /\ is_filter (VDict fd) = true.
Proof.
  simpl. unfold key_has at 4. intro H. repeat rewrite andb_true_iff in H.
  destruct H as [[_ H] _]. destruct (dict_get "filter" d) as [[]|]; try discriminate. eauto.
Qed.

Lemma set_basic_wf s k ox s' :
  doc_wfb (DataManager.editing_json s) = true ->
  (forall x, doc_field_ok k (VStr x) = true) ->
  DataManager.set_basic s k ox = Some s' ->
  DataManager.saved_json s' = DataManager.saved_json s /\
  doc_wfb (DataManager.editing_json s') = true.
Proof.
  intros He Hk H. destruct ox as [x|]; simpl in H.
  - destruct (doc_wfb_dict _ He) as [ed Eed]. unfold Json.bind in H.
    rewrite Eed in H, He. simpl in H. injection H as <-. simpl.
    split; [reflexivity|]. apply doc_wfb_set; auto.
  - injection H as <-. auto.
Qed.

Lemma set_filter_wf s k ox s' :
  doc_wfb (DataManager.editing_json s) = true ->
  DataManager.set_filter s k ox = Some s' ->
  DataManager.saved_json s' = DataManager.saved_json s /\
  doc_wfb (DataManager.editing_json s') = true.
Proof.
  intros He H. destruct ox as [x|]; simpl in H.
  - destruct (doc_wfb_dict _ He) as [ed Eed]. rewrite Eed in H, He.
    destruct (doc_get_filter _ He) as [fd [Efd Hfd]].
    unfold Json.bind in H. simpl in H. rewrite Efd in H. simpl in H.
    injection H as <-. simpl. split; [reflexivity|].
    apply doc_wfb_set; [exact He|]. apply filter_set. exact Hfd.
  - injection H as <-. auto.
Qed.

Lemma empty_json_wf : doc_wfb DataManager.create_empty_json = true.
Proof. reflexivity. Qed.

Lemma exec_op_wf fl rp s o s' :
  session_wfb s = true -> DataManager.exec_op fl rp s o = Some s' -> session_wfb s' = true.
Proof.
  unfold session_wfb. intros Hs H. apply andb_true_iff in Hs as [Hsv Hed].
  destruct (doc_wfb_dict _ Hed) as [ed Eed].
  destruct o; simpl in H; unfold Json.bind in H.
  - injection H as <-. simpl. rewrite Hsv, Hed. reflexivity.
  - injection H as <-. simpl. rewrite Hsv, Hed. reflexivity.
  - destruct (DataManager.clean_json_structure fl rp json_data) as [c|] eqn:Ec; [|discriminate H].
    injection H as <-. simpl. rewrite (clean_json_structure_wf _ _ _ _ Ec), Hed. reflexivity.
  - injection H as <-. simpl. rewrite Hed. reflexivity.
  - destruct (DataManager.clean_json_structure fl rp json_data) as [c|] eqn:Ec; [|discriminate H].
    injection H as <-. simpl. rewrite (clean_json_structure_wf _ _ _ _ Ec), Hsv. reflexivity.
  - injection H as <-. simpl. rewrite Hsv. reflexivity.
  - injection H as <-. simpl. unfold DataManager.deep_copy. rewrite Hsv. reflexivity.
  - injection H as <-. simpl. unfold DataManager.deep_copy. rewrite Hed. reflexivity.
  - injection H as <-. simpl. unfold DataManager.deep_copy. rewrite Hsv. reflexivity.
  - destruct (DataManager.set_basic s "name" name) as [s1|] eqn:E1; [|discriminate H].
    destruct (set_basic_wf s "name" name s1 Hed (fun _ => eq_refl) E1) as [S1 W1].
    destruct (DataManager.set_basic s1 "description" description) as [s2|] eqn:E2; [|discriminate H].
    destruct (set_basic_wf s1 "description" description s2 W1 (fun _ => eq_refl) E2) as [S2 W2].
    destruct (set_basic_wf s2 "origin" origin s' W2 (fun _ => eq_refl) H) as [S3 W3].
    rewrite S3, S2, S1, Hsv, W3. reflexivity.
  - destruct (DataManager.clean_data_item fl rp item) as [c|] eqn:Ec; [|discriminate H].
    rewrite Eed in H, Hed. destruct (doc_get_data _ Hed) as [l [El Hl]].
    simpl in H. rewrite El in H. simpl in H. injection H as <-. simpl.
    rewrite Hsv. apply doc_wfb_set; [exact Hed|]. unfold doc_field_ok; cbn -[forallb app].
    rewrite forallb_app, Hl. simpl. rewrite (clean_data_item_wf _ _ _ _ Ec). reflexivity.
  - rewrite Eed in H, Hed. destruct (doc_get_data _ Hed) as [l [El Hl]].
    simpl in H. rewrite El in H.
    destruct ((0 <=? index)%Z && (index <? Z.of_nat (length l))%Z).
    + destruct (DataManager.clean_data_item fl rp item) as [c|] eqn:Ec; [|discriminate H].
      simpl in H. injection H as <-. simpl.
      rewrite Hsv. apply doc_wfb_set; [exact Hed|]. unfold doc_field_ok; cbn -[forallb].
      apply forallb_replace_nth; [exact Hl|]. simpl. exact (clean_data_item_wf _ _ _ _ Ec).
    + injection H as <-. rewrite Hsv, Eed. exact Hed.
  - rewrite Eed in H, Hed. destruct (doc_get_data _ Hed) as [l [El Hl]].
    simpl in H. rewrite El in H.
    destruct ((0 <=? index)%Z && (index <? Z.of_nat (length l))%Z).
    + simpl in H. injection H as <-. simpl.
      rewrite Hsv. apply doc_wfb_set; [exact Hed|]. unfold doc_field_ok; cbn -[forallb].
      apply forallb_remove_nth. exact Hl.
    + injection H as <-. rewrite Hsv, Eed. exact Hed.
  - destruct (DataManager.set_filter s "inclusive" inclusive) as [s1|] eqn:E1; [|discriminate H].
    destruct (set_filter_wf _ _ _ _ Hed E1) as [S1 W1].
    destruct (set_filter_wf _ _ _ _ W1 H) as [S2 W2].
    rewrite S2, S1, Hsv, W2. reflexivity.
Qed.

Lemma reachable_wf fl rp s : DataManager.reachable fl rp s -> session_wfb s = true.
Proof.
  induction 1 as [|s o s' _ IH Hstep].
  - reflexivity.
  - exact (exec_op_wf _ _ _ _ _ IH Hstep).
Qed.

End ShapeFacts.

(** ** Facts about the viewport calculator *)
Module MapUtilsFacts.

Import MapUtils.
Local Open Scope R_scope.

Lemma scan_zoom_within (r : R) :
  r <= 1000000 -> scan_zoom r ZOOM_DISTANCE_MAP = 10%Z.
Proof.
  intro H. unfold ZOOM_DISTANCE_MAP. simpl scan_zoom.
  destruct (Rle_dec r 1000000); [reflexivity|contradiction].
Qed.

Lemma scan_zoom_beyond (r : R) :
  1000000 < r -> scan_zoom r ZOOM_DISTANCE_MAP = 15%Z.
Proof.
  intro H. unfold ZOOM_DISTANCE_MAP. simpl scan_zoom.
  repeat (destruct (Rle_dec _ _); [lra|]). reflexivity.
Qed.

Lemma half_abs (r : R) : 2 * Rabs (r / 2) = Rabs r.
Proof.
  unfold Rdiv. rewrite Rabs_mult, (Rabs_right (/ 2)).
  - field.
  - left. apply Rinv_0_lt_compat. lra.
Qed.

Lemma atan_abs_sin_cos (h : R) :
  - (PI / 2) < h < PI / 2 -> atan (Rabs (sin h) / cos h) = Rabs h.
Proof.
  intros Hh. pose proof PI2_RGT_0 as HP.
  destruct (Rle_dec 0 h) as [H0|H0].
  - rewrite (Rabs_right (sin h)), (Rabs_right h) by
      (apply Rle_ge; try apply sin_ge_0; lra).
    apply atan_tan. exact Hh.
  - assert (Hs : 0 <= sin (- h)) by (apply sin_ge_0; lra).
    rewrite sin_neg in Hs.
    rewrite (Rabs_left1 (sin h)) by lra. rewrite (Rabs_left h) by lra.
    rewrite <- sin_neg, <- (cos_neg h).
    apply atan_tan. lra.
Qed.

(** On a meridian the haversine distance is the arc length. *)
Lemma distance_same_lng (la1 la2 g : R) :
  Rabs (la2 - la1) < 180 ->
  calculate_distance la1 g la2 g = 6371000 * Rabs (radians (la2 - la1)).
Proof.
  intros Hd. unfold calculate_distance. cbv zeta.
  set (r := radians (la2 - la1)).
  set (h := r / 2).
  assert (Hz : radians (g - g) / 2 = 0) by (unfold radians; field).
  rewrite Hz, sin_0.
  replace (sin h ^ 2 + cos (radians la1) * cos (radians la2) * 0 ^ 2) with (Rsqr (sin h))
    by (unfold Rsqr; ring).
  rewrite sqrt_Rsqr_abs, sin2.
  replace (1 - (1 - Rsqr (cos h))) with (Rsqr (cos h)) by ring.
  rewrite sqrt_Rsqr_abs.
  pose proof PI_RGT_0 as HP.
  assert (Hh : Rabs h < PI / 2).
  { unfold h, r, radians.
    replace ((la2 - la1) * PI / 180 / 2) with ((la2 - la1) * (PI / 360)) by field.
    rewrite Rabs_mult, (Rabs_right (PI / 360)) by lra.
    apply Rlt_le_trans with (180 * (PI / 360)); [|lra].
    apply Rmult_lt_compat_r; lra. }
  apply Rabs_def2 in Hh.
  assert (Hc : 0 < cos h) by (apply cos_gt_0; lra).
  rewrite (Rabs_right (cos h)) by lra.
  unfold atan2. destruct (Rlt_dec 0 (cos h)) as [_|Hn]; [|contradiction].
  rewrite atan_abs_sin_cos by lra.
  unfold h. rewrite half_abs. reflexivity.
Qed.

Lemma offset_bounds (k : R) :
  0 < k < 3 * 6371000 -> 0 < k / (PI * 6371000) < 1.
Proof.
  intros Hk. pose proof PI2_3_2 as HP.
  assert (HD : 0 < PI * 6371000) by lra.
  split.
  - unfold Rdiv. apply Rmult_lt_0_compat; [lra|]. apply Rinv_0_lt_compat. exact HD.
  - apply (Rmult_lt_reg_r (PI * 6371000)); [exact HD|].
    unfold Rdiv. rewrite Rmult_assoc, Rinv_l by lra. lra.
Qed.

Lemma radians_offset (k : R) : radians (k / (PI * 6371000)) = k / 6371000 / 180.
Proof. unfold radians. pose proof PI_RGT_0. field. lra. Qed.

Lemma is_valid_intro (p : point) :
  lat p <> 0 -> lng p <> 0 -> -90 <= lat p <= 90 -> -180 <= lng p <= 180 ->
  is_valid p = true.
Proof.
  intros H1 H2 H3 H4. unfold is_valid, Rneqb, Rleb.
  destruct (Req_dec_T (lat p) 0); [contradiction|].
  destruct (Req_dec_T (lng p) 0); [contradiction|].
  repeat (destruct (Rle_dec _ _); [|lra]). reflexivity.
Qed.

(** Two valid points on one meridian, the second [k / (PI * 6371000)]
    degrees north of the first: the zoom level is the table scan at
    1.5 times [k / 180] metres. *)
Lemma zoom_two_on_meridian (la g k : R) :
  0 < la -> la + 1 <= 90 -> g <> 0 -> -180 <= g <= 180 ->
  0 < k < 3 * 6371000 ->
  calculate_zoom_level [mk_point la g; mk_point (la + k / (PI * 6371000)) g] 1.5 =
  scan_zoom (k / 180 * 1.5) ZOOM_DISTANCE_MAP.
Proof.
  intros H1 H3 H2 H5 Hk. pose proof (offset_bounds k Hk) as [Ho1 Ho2].
  set (o := k / (PI * 6371000)) in *.
  unfold calculate_zoom_level, calculate_bounds, valid_points. simpl filter.
  rewrite (is_valid_intro (mk_point la g))
    by (simpl; first [assumption | lra | intro; lra]).
  rewrite (is_valid_intro (mk_point (la + o) g))
    by (simpl; first [assumption | lra | intro; lra]).
  simpl. unfold lat_nonzero, Rneqb. simpl.
  destruct (Req_dec_T la 0); [lra|].
  destruct (Req_dec_T (la + o) 0); [lra|]. simpl.
  rewrite Rmin_left, Rmax_right, Rmin_left, Rmax_right by lra.
  rewrite distance_same_lng by (rewrite Rabs_right; lra).
  replace (la + o - la) with o by ring. unfold o. rewrite radians_offset.
  rewrite Rabs_right by (unfold Rdiv; apply Rle_ge; apply Rmult_le_pos;
                         [apply Rmult_le_pos; lra|lra]).
  replace (6371000 * (k / 6371000 / 180) * 1.5) with (k / 180 * 1.5) by field.
  reflexivity.
Qed.

Lemma distance_offset (la g k : R) :
  0 < k < 3 * 6371000 ->
  calculate_distance la g (la + k / (PI * 6371000)) g = k / 180.
Proof.
  intros Hk. pose proof (offset_bounds k Hk) as Hb.
  rewrite distance_same_lng; replace (la + k / (PI * 6371000) - la)
    with (k / (PI * 6371000)) by ring.
  - rewrite radians_offset, Rabs_right
      by (unfold Rdiv; apply Rle_ge; apply Rmult_le_pos; [apply Rmult_le_pos|]; lra).
    field.
  - rewrite Rabs_right; lra.
Qed.

Lemma distance_self (la g : R) : calculate_distance la g la g = 0.
Proof.
  rewrite distance_same_lng; rewrite Rminus_diag.
  - unfold radians. rewrite Rmult_0_l, (Rdiv_0_l 180), Rabs_R0. ring.
  - rewrite Rabs_R0. lra.
Qed.

Lemma valid_count_le (pts : list point) :
  (length (valid_points pts) <= length (filter lat_nonzero pts))%nat.
Proof.
  unfold valid_points. induction pts as [|p r IH]; simpl; [lia|].
  destruct (is_valid p) eqn:E.
  - assert (lat_nonzero p = true) as ->.
    { unfold is_valid in E. unfold lat_nonzero.
      destruct (Rneqb (lat p) 0); [reflexivity|discriminate]. }
    simpl. lia.
  - destruct (lat_nonzero p); simpl; lia.
Qed.

(** With two or more valid points the zoom level is 10 or 15, whatever
    the spread of the points. *)
Lemma zoom_level_values (pts : list point) (pad : R) :
  (2 <= length (valid_points pts))%nat ->
  calculate_zoom_level pts pad = 10%Z \/ calculate_zoom_level pts pad = 15%Z.
Proof.
  intros H. pose proof (valid_count_le pts) as Hc.
  unfold calculate_zoom_level, calculate_bounds.
  destruct (valid_points pts) as [|p r]; [simpl in H; lia|].
  destruct (Nat.leb_spec (length (filter lat_nonzero pts)) 1); [lia|].
  match goal with |- context [scan_zoom ?x _] => destruct (Rle_dec x 1000000) end.
  - left. apply scan_zoom_within. assumption.
  - right. apply scan_zoom_beyond. lra.
Qed.

Lemma zoom_p_a_north (k : R) :
  0 < k < 3 * 6371000 ->
  calculate_zoom_level [Inputs.p_a; mk_point (30 + k / (PI * 6371000)) 120] 1.5 =
  scan_zoom (k / 180 * 1.5) ZOOM_DISTANCE_MAP.
Proof. intros Hk. apply zoom_two_on_meridian; lra. Qed.

End MapUtilsFacts.

(** ** Facts about the export *)
Module ExportFacts.

Import DataManager Shape ShapeFacts.
Local Open Scope string_scope.

Lemma dict_get_notin k d : ~ In k (map fst d) -> dict_get k d = None.
Proof.
  induction d as [|[k0 v0] r IH]; simpl; intro H; [reflexivity|].
  destruct (String.eqb_spec k k0) as [->|]; [tauto|]. apply IH. tauto.
Qed.

Lemma export_fold_get re k (it acc : dict) :
  NoDup (map fst it) -> (forall k', In k' (map fst it) -> dict_get k' acc = None) ->
  dict_get k (fold_left (fun acc kv =>
               let v := export_value (fst kv) (snd kv) in
               if re && negb (py_truthy v) then acc else dict_set (fst kv) v acc) it acc) =
  match dict_get k it with Some v => exported_entry re k v | None => dict_get k acc end.
Proof.
  revert acc. induction it as [|[k0 v0] r IH]; intros acc Hnd Hacc; simpl; [reflexivity|].
  inversion Hnd as [|? ? Hn0 Hndr]; subst.
  rewrite IH; [| exact Hndr | intros k' Hk';
                 destruct (re && negb (py_truthy (export_value k0 v0)));
                 [|rewrite dict_get_set; destruct (String.eqb_spec k' k0) as [->|]; [contradiction|]];
                 apply Hacc; simpl; auto].
  unfold exported_entry. destruct (String.eqb_spec k k0) as [->|Hne].
  - rewrite (dict_get_notin k0 r Hn0).
    destruct (re && negb (py_truthy (export_value k0 v0))).
    + apply Hacc. simpl. auto.
    + rewrite dict_get_set, String.eqb_refl. reflexivity.
  - destruct (dict_get k r); [reflexivity|].
    destruct (re && negb (py_truthy (export_value k0 v0))); [reflexivity|].
    rewrite dict_get_set. apply String.eqb_neq in Hne. rewrite Hne. reflexivity.
Qed.

(** With distinct keys, the exported item holds each key's cleaned value
    unless it is empty. *)
Lemma export_fields_get re it k :
  NoDup (map fst it) ->
  dict_get k (export_fields re it) =
  match dict_get k it with Some v => exported_entry re k v | None => None end.
Proof.
  intro H. unfold export_fields.
  rewrite export_fold_get; [destruct (dict_get k it); reflexivity | exact H | intros; reflexivity].
Qed.

Lemma export_item_rel re rz it o :
  NoDup (map fst it) -> export_item re rz (VDict it) = Some o -> export_rel re rz (VDict it) o.
Proof.
  intros Hnd H. exists it. split; [reflexivity|]. split; [intro k; apply export_fields_get; exact Hnd|].
  unfold export_item in H. unfold center_is_zero.
  destruct rz.
  - destruct (dict_get_default "center" (VDict []) (export_fields re it)) as [| | | | | |c]; try discriminate.
    destruct (py_eq_zero (dict_get_default "lat" (VInt 0) c) && py_eq_zero (dict_get_default "lng" (VInt 0) c)).
    + injection H as <-. split; [tauto|]. intros e E; discriminate E.
    + destruct (export_fields re it) as [|kv r]; injection H as <-.
      * split; [tauto|]. intros e E; discriminate E.
      * split; [split; [discriminate|]; intros [E|[_ E]]; discriminate E|].
        intros e E. injection E as <-. reflexivity.
  - destruct (export_fields re it) as [|kv r]; injection H as <-.
    + split; [tauto|]. intros e E; discriminate E.
    + split; [split; [discriminate|]; intros [E|[E _]]; discriminate E|].
      intros e E. injection E as <-. reflexivity.
Qed.

Lemma traverse_Forall2 {A B} (f : A -> option B) l ys :
  traverse f l = Some ys -> Forall2 (fun x y => f x = Some y) l ys.
Proof.
  revert ys. induction l as [|x r IH]; intros ys H; simpl in H.
  - injection H as <-. constructor.
  - unfold Json.bind in H. destruct (f x) eqn:E; [|discriminate].
    destruct (traverse f r) eqn:E2; [|discriminate]. injection H as <-.
    constructor; auto.
Qed.

End ExportFacts.

(** ** Lemmas on the text normalisation *)
Module TextFacts.

Import Text.

Lemma nonspace_neq c : is_py_space c = false -> Ascii.eqb c sp = false /\ Ascii.eqb c nl = false /\ is_tab_class c = false.
Proof.
  intro H. split; [|split].
  - destruct (Ascii.eqb c sp) eqn:E; [apply Ascii.eqb_eq in E; subst; discriminate|reflexivity].
  - destruct (Ascii.eqb c nl) eqn:E; [apply Ascii.eqb_eq in E; subst; discriminate|reflexivity].
  - unfold is_py_space, is_tab_class in *. destruct (nat_of_ascii c) as [|n]; [reflexivity|].
    apply orb_false_iff in H as [H1 _]. apply andb_false_iff in H1.
    repeat rewrite orb_false_iff. repeat rewrite Nat.eqb_neq.
    destruct H1 as [H1|H1]; apply Nat.leb_gt in H1; lia.
Qed.

Lemma lstrip_in c l : In c l -> is_py_space c = false -> In c (lstrip l).
Proof.
  induction l as [|x r IH]; simpl; [tauto|]. intros [->|Hin] Hc.
  - rewrite Hc. left; reflexivity.
  - destruct (is_py_space x); [auto|right; exact Hin].
Qed.

Lemma strip_in c l : In c l -> is_py_space c = false -> In c (strip l).
Proof.
  intros H Hc. unfold strip. apply (proj1 (in_rev _ _)). apply lstrip_in; [|exact Hc].
  apply (proj1 (in_rev _ _)). apply lstrip_in; assumption.
Qed.

Lemma lstrip_sub c l : In c (lstrip l) -> In c l.
Proof. induction l as [|x r IH]; simpl; [tauto|]. destruct (is_py_space x); auto. Qed.

Lemma strip_sub c l : In c (strip l) -> In c l.
Proof.
  unfold strip. intro H. apply (proj2 (in_rev _ _)) in H. apply lstrip_sub in H.
  apply (proj2 (in_rev _ _)) in H. apply lstrip_sub in H. exact H.
Qed.

Lemma lstrip_head l c r : lstrip l = c :: r -> is_py_space c = false.
Proof.
  induction l as [|x l' IH]; simpl; [discriminate|].
  destruct (is_py_space x) eqn:E; [exact IH|]. intro H; injection H as -> _; exact E.
Qed.

Lemma strip_nonempty l : strip l <> [] -> exists c, In c (strip l) /\ is_py_space c = false.
Proof.
  unfold strip. destruct (lstrip (rev (lstrip l))) as [|c r] eqn:E; [simpl; tauto|].
  intros _. exists c. split; [apply (proj1 (in_rev _ _)); left; reflexivity|].
  exact (lstrip_head _ _ _ E).
Qed.

Lemma collapse_spaces_in c p l : In c l -> is_py_space c = false -> In c (collapse_spaces p l).
Proof.
  revert p. induction l as [|x r IH]; intros p; simpl; [tauto|]. intros [->|Hin] Hc.
  - destruct (nonspace_neq c Hc) as [E1 _]. rewrite E1. left; reflexivity.
  - destruct (Ascii.eqb x sp); [destruct p; simpl; auto|right; auto].
Qed.

Lemma tabs_to_space_in c p l : In c l -> is_py_space c = false -> In c (tabs_to_space p l).
Proof.
  revert p. induction l as [|x r IH]; intros p; simpl; [tauto|]. intros [->|Hin] Hc.
  - destruct (nonspace_neq c Hc) as [_ [_ E3]]. rewrite E3. left; reflexivity.
  - destruct (is_tab_class x); [destruct p; simpl; auto|right; auto].
Qed.

Lemma drop_after_newline_in c p l : In c l -> is_py_space c = false -> In c (drop_after_newline p l).
Proof.
  revert p. induction l as [|x r IH]; intros p; simpl; [tauto|]. intros [->|Hin] Hc.
  - destruct (nonspace_neq c Hc) as [E1 _]. rewrite E1. left; reflexivity.
  - destruct (Ascii.eqb x sp && p); [auto|right; auto].
Qed.

Lemma drop_before_newline_in c n l : In c l -> is_py_space c = false -> In c (drop_before_newline n l).
Proof.
  revert n. induction l as [|x r IH]; intros n; simpl; [tauto|]. intros [->|Hin] Hc.
  - destruct (nonspace_neq c Hc) as [E1 [E2 _]]. rewrite E1, E2. apply in_app_iff; right; left; reflexivity.
  - destruct (Ascii.eqb x sp); [auto|]. destruct (Ascii.eqb x nl); [right; auto|].
    apply in_app_iff; right; right; auto.
Qed.

Lemma collapse_newlines_in c n l : In c l -> is_py_space c = false -> In c (collapse_newlines n l).
Proof.
  revert n. induction l as [|x r IH]; intros n; simpl; [tauto|]. intros [->|Hin] Hc.
  - destruct (nonspace_neq c Hc) as [_ [E2 _]]. rewrite E2. apply in_app_iff; right; left; reflexivity.
  - destruct (Ascii.eqb x nl); [auto|]. apply in_app_iff; right; right; auto.
Qed.

Lemma clean_text_l_in c l : In c l -> is_py_space c = false -> In c (clean_text_l l).
Proof.
  intros H Hc. unfold clean_text_l.
  apply collapse_newlines_in; [|exact Hc]. apply drop_before_newline_in; [|exact Hc].
  apply drop_after_newline_in; [|exact Hc]. apply tabs_to_space_in; [|exact Hc].
  apply collapse_spaces_in; [|exact Hc]. apply strip_in; assumption.
Qed.

Lemma collapse_spaces_sub c p l : In c (collapse_spaces p l) -> In c l.
Proof.
  revert p. induction l as [|x r IH]; intros p; simpl; [tauto|].
  destruct (Ascii.eqb x sp) eqn:E.
  - apply Ascii.eqb_eq in E; subst. destruct p; simpl; [intro H; right; eauto|].
    intros [H|H]; [left; exact H|right; eauto].
  - intros [H|H]; [left; exact H|right; eauto].
Qed.

Lemma tabs_to_space_sub c p l : In c (tabs_to_space p l) -> c = sp \/ (In c l /\ is_tab_class c = false).
Proof.
  revert p. induction l as [|x r IH]; intros p; simpl; [tauto|].
  destruct (is_tab_class x) eqn:E.
  - destruct p; simpl; [intro H; destruct (IH true H) as [H'|[H1 H2]]; auto|].
    intros [H|H]; [left; auto|destruct (IH true H) as [H'|[H1 H2]]; auto].
  - intros [<-|H]; [right; split; [left; reflexivity|exact E]|].
    destruct (IH false H) as [H'|[H1 H2]]; auto.
Qed.

Lemma drop_after_newline_sub c p l : In c (drop_after_newline p l) -> In c l.
Proof.
  revert p. induction l as [|x r IH]; intros p; simpl; [tauto|].
  destruct (Ascii.eqb x sp && p); [intro H; right; eauto|].
  intros [H|H]; [left; exact H|right; eauto].
Qed.

Lemma drop_before_newline_sub c n l : In c (drop_before_newline n l) -> c = sp \/ In c l.
Proof.
  revert n. induction l as [|x r IH]; intros n; simpl.
  - intro H. left. apply repeat_spec in H. exact H.
  - destruct (Ascii.eqb x sp); [intro H; destruct (IH _ H); auto|].
    destruct (Ascii.eqb x nl); [intros [H|H]; [auto|destruct (IH _ H); auto]|].
    intro H. apply in_app_iff in H as [H|[H|H]].
    + left. apply repeat_spec in H. exact H.
    + auto.
    + destruct (IH _ H); auto.
Qed.

Lemma flush_newlines_sub c n : In c (flush_newlines n) -> c = nl.
Proof.
  unfold flush_newlines. destruct (3 <=? n); simpl; [intuition|apply repeat_spec].
Qed.

Lemma collapse_newlines_sub c n l : In c (collapse_newlines n l) -> c = nl \/ In c l.
Proof.
  revert n. induction l as [|x r IH]; intros n; simpl.
  - intro H. left. exact (flush_newlines_sub _ _ H).
  - destruct (Ascii.eqb x nl); [intro H; destruct (IH _ H); auto|].
    intro H. apply in_app_iff in H as [H|[H|H]].
    + left. exact (flush_newlines_sub _ _ H).
    + auto.
    + destruct (IH _ H); auto.
Qed.

Lemma clean_text_l_sub c l :
  In c (clean_text_l l) -> (c = sp \/ c = nl \/ In c l) /\ is_tab_class c = false.
Proof.
  unfold clean_text_l. intro H.
  destruct (collapse_newlines_sub _ _ _ H) as [->|H1]; [split; [auto|reflexivity]|].
  destruct (drop_before_newline_sub _ _ _ H1) as [->|H2]; [split; [auto|reflexivity]|].
  apply drop_after_newline_sub in H2.
  destruct (tabs_to_space_sub _ _ _ H2) as [->|[H3 Ht]]; [split; [auto|reflexivity]|].
  apply collapse_spaces_sub, strip_sub in H3. auto.
Qed.

Lemma clean_text_l_nil l : strip l = [] -> clean_text_l l = [].
Proof. intro H. unfold clean_text_l. rewrite H. reflexivity. Qed.

Lemma lstr_clean_text s : lstr (clean_text s) = clean_text_l (lstr s).
Proof. unfold clean_text, lstr. apply list_ascii_of_string_of_list_ascii. Qed.

Lemma strip_nil_iff l : strip l = [] <-> forallb is_py_space l = true.
Proof.
  split.
  - intro H. apply forallb_forall. intros c Hc. destruct (is_py_space c) eqn:E; [reflexivity|].
    pose proof (strip_in c l Hc E) as Hin. rewrite H in Hin. destruct Hin.
  - intro H. destruct (strip l) as [|c r] eqn:E; [reflexivity|].
    destruct (strip_nonempty l) as [c' [Hin Hc]]; [rewrite E; discriminate|].
    apply strip_sub in Hin. rewrite forallb_forall in H. rewrite (H c' Hin) in Hc. discriminate.
Qed.

Lemma clean_text_tab_free s : forallb (fun c => negb (is_tab_class c)) (lstr (clean_text s)) = true.
Proof.
  apply forallb_forall. intros c Hc. rewrite lstr_clean_text in Hc.
  rewrite (proj2 (clean_text_l_sub _ _ Hc)). reflexivity.
Qed.

Lemma lstr_sola u : lstr (string_of_list_ascii u) = u.
Proof. apply list_ascii_of_string_of_list_ascii. Qed.

Lemma lstrip_id l : forallb (fun c => negb (is_py_space c)) l = true -> lstrip l = l.
Proof.
  destruct l as [|c r]; simpl; [reflexivity|]. intro H. apply andb_true_iff in H as [H _].
  apply negb_true_iff in H. rewrite H. reflexivity.
Qed.

Lemma strip_id l : forallb (fun c => negb (is_py_space c)) l = true -> strip l = l.
Proof.
  intro H. unfold strip. rewrite (lstrip_id l H), lstrip_id; [apply rev_involutive|].
  apply forallb_forall. intros c Hc. apply (proj1 (forallb_forall _ l) H). apply in_rev. exact Hc.
Qed.

Lemma filter_id {A} (p : A -> bool) l : forallb p l = true -> filter p l = l.
Proof.
  induction l as [|x r IH]; simpl; [reflexivity|]. intro H. apply andb_true_iff in H as [H1 H2].
  rewrite H1, IH; auto.
Qed.

Lemma filter_all {A} (p : A -> bool) l : forallb p (filter p l) = true.
Proof. induction l as [|x r IH]; simpl; [reflexivity|]. destruct (p x) eqn:E; simpl; [rewrite E|]; auto. Qed.

Lemma has_prefix_app p x : has_prefix p (p ++ x) = true.
Proof. induction p as [|a p IH]; simpl; [reflexivity|]. rewrite Ascii.eqb_refl. exact IH. Qed.

Lemma clean_url_fixed u :
  u <> [] -> forallb (fun c => negb (is_py_space c)) u = true ->
  clean_url (string_of_list_ascii u) =
  if starts_with_scheme u then string_of_list_ascii u
  else if domain_prefix u then ("https://" ++ string_of_list_ascii u)%string
  else if has_prefix (lstr "www.") u then ("https://" ++ string_of_list_ascii u)%string
  else string_of_list_ascii u.
Proof.
  intros Hn Hs. unfold clean_url. rewrite lstr_sola, (strip_id u Hs).
  destruct u as [|c r]; [contradiction|]. rewrite (filter_id _ _ Hs). reflexivity.
Qed.

Lemma https_prefix u :
  ("https://" ++ string_of_list_ascii u)%string = string_of_list_ascii (lstr "https://" ++ u).
Proof. reflexivity. Qed.

Lemma clean_url_shape s :
  clean_url s = ""%string \/
  exists f, f <> [] /\ forallb (fun c => negb (is_py_space c)) f = true /\
    clean_url s = (if starts_with_scheme f then string_of_list_ascii f
                   else if domain_prefix f then ("https://" ++ string_of_list_ascii f)%string
                   else if has_prefix (lstr "www.") f then ("https://" ++ string_of_list_ascii f)%string
                   else string_of_list_ascii f).
Proof.
  unfold clean_url. destruct (strip (lstr s)) as [|c r] eqn:E; [left; reflexivity|right].
  destruct (strip_nonempty (lstr s)) as [c' [Hin Hc]]; [rewrite E; discriminate|].
  rewrite E in Hin.
  exists (filter (fun c => negb (is_py_space c)) (c :: r)). split; [|split; [apply filter_all|reflexivity]].
  intro H. assert (Hf : In c' (filter (fun c => negb (is_py_space c)) (c :: r)))
    by (apply filter_In; rewrite Hc; auto).
  rewrite H in Hf. destruct Hf.
Qed.

End TextFacts.

(** ** Lemmas on the viewport calculator *)
Module MapMoreFacts.

Import MapUtils MapUtilsFacts.
Local Open Scope R_scope.

Lemma scan_zoom_values (r : R) :
  scan_zoom r ZOOM_DISTANCE_MAP = 10%Z \/ scan_zoom r ZOOM_DISTANCE_MAP = 15%Z.
Proof.
  destruct (Rle_dec r 1000000).
  - left. apply scan_zoom_within. assumption.
  - right. apply scan_zoom_beyond. lra.
Qed.

Lemma atan2_nonneg (y x : R) : 0 <= y -> 0 <= atan2 y x.
Proof.
  intro Hy. pose proof PI_RGT_0 as HP. unfold atan2.
  destruct (Rlt_dec 0 x) as [Hx|Hx].
  - destruct (Req_dec y 0) as [->|Hy0].
    + unfold Rdiv. rewrite Rmult_0_l, atan_0. lra.
    + rewrite <- atan_0. left. apply atan_increasing.
      unfold Rdiv. apply Rmult_lt_0_compat; [lra|apply Rinv_0_lt_compat; exact Hx].
  - destruct (Rlt_dec x 0) as [Hx'|Hx'].
    + destruct (Rle_dec 0 y); [|lra]. pose proof (atan_bound (y / x)). lra.
    + destruct (Rlt_dec 0 y); [lra|]. destruct (Rlt_dec y 0); lra.
Qed.

Lemma sin_half_sq a b : sin (radians (a - b) / 2) ^ 2 = sin (radians (b - a) / 2) ^ 2.
Proof.
  replace (radians (a - b) / 2) with (- (radians (b - a) / 2)) by (unfold radians; field).
  rewrite sin_neg. ring.
Qed.






Lemma distance_nonneg la1 g1 la2 g2 : 0 <= calculate_distance la1 g1 la2 g2.
Proof.
  unfold calculate_distance. cbv zeta.
  pose proof (atan2_nonneg (sqrt (sin (radians (la2 - la1) / 2) ^ 2 +
     cos (radians la1) * cos (radians la2) * sin (radians (g2 - g1) / 2) ^ 2))
     (sqrt (1 - (sin (radians (la2 - la1) / 2) ^ 2 +
     cos (radians la1) * cos (radians la2) * sin (radians (g2 - g1) / 2) ^ 2))) (sqrt_pos _)).
  lra.
Qed.

Lemma distance_sym la1 g1 la2 g2 :
  calculate_distance la1 g1 la2 g2 = calculate_distance la2 g2 la1 g1.
Proof.
  unfold calculate_distance. cbv zeta.
  rewrite (sin_half_sq la2 la1), (sin_half_sq g2 g1), (Rmult_comm (cos (radians la1))).
  reflexivity.
Qed.

End MapMoreFacts.

(** ** Lemmas on the remaining methods of DataManager *)
Module MoreFacts.

Import DataManager Shape ShapeFacts ExportFacts DocInputs DataManagerMore MoreInputs.
Local Open Scope string_scope.

Lemma item_wfb_set_center it c :
  item_wfb it = true -> is_center c = true -> item_wfb (dict_set "center" c it) = true.
Proof.
  unfold item_wfb, item_str_keys. cbn -[key_has dict_set]. rewrite !key_has_set. cbn.
  intros H Hc. rewrite Hc. repeat rewrite andb_true_iff in H. repeat rewrite andb_true_iff.
  tauto.
Qed.

Lemma update_coordinates_wf s index lat lng ue s' :
  session_wfb s = true -> update_coordinates s index lat lng ue = Some s' -> session_wfb s' = true.
Proof.
  unfold session_wfb, update_coordinates, tier. intros Hs H.
  apply andb_true_iff in Hs as [Hsv Hed].
  assert (Hdoc : forall v d, doc_wfb v = true -> v = VDict d ->
            forall i la ln it l, dict_get "data" d = Some (VList l) ->
            nth_error l i = Some (VDict it) ->
            doc_wfb (VDict (dict_set "data" (VList (replace_nth i (VDict (dict_set "center"
               (VDict [("lat", VFloat la); ("lng", VFloat ln)]) it)) l)) d)) = true).
  { intros v d Hv -> i la ln it l Hl Hi. apply doc_wfb_set; [exact Hv|].
    destruct (doc_get_data d Hv) as [l0 [Hl0 Hall]]. rewrite Hl in Hl0. injection Hl0 as <-.
    unfold doc_field_ok. simpl. apply forallb_replace_nth; [exact Hall|].
    simpl. apply item_wfb_set_center; [|reflexivity].
    apply nth_error_In in Hi. rewrite forallb_forall in Hall. apply (Hall _ Hi). }
  destruct ue.
  - destruct (doc_wfb_dict _ Hed) as [d Hd]. rewrite Hd in H.
    destruct (doc_get_data d ltac:(rewrite <- Hd; exact Hed)) as [l [Hl _]].
    unfold dict_get_default in H. rewrite Hl in H. cbn [py_len Json.bind] in H.
    destruct (_ && _); [|injection H as <-; rewrite Hsv, Hed; reflexivity].
    destruct (nth_error l _) as [[| | | | | |it]|] eqn:Ei; try discriminate.
    injection H as <-. simpl. rewrite Hsv. simpl.
    exact (Hdoc (editing_json s) d Hed Hd _ _ _ _ l Hl Ei).
  - destruct (doc_wfb_dict _ Hsv) as [d Hd]. rewrite Hd in H.
    destruct (doc_get_data d ltac:(rewrite <- Hd; exact Hsv)) as [l [Hl _]].
    unfold dict_get_default in H. rewrite Hl in H. cbn [py_len Json.bind] in H.
    destruct (_ && _); [|injection H as <-; rewrite Hsv, Hed; reflexivity].
    destruct (nth_error l _) as [[| | | | | |it]|] eqn:Ei; try discriminate.
    injection H as <-. simpl. rewrite Hed, andb_true_r.
    exact (Hdoc (saved_json s) d Hsv Hd _ _ _ _ l Hl Ei).
Qed.

Lemma exec_op_more_wf fl rp s o s' :
  session_wfb s = true -> exec_op_more fl rp s o = Some s' -> session_wfb s' = true.
Proof.
  intros Hs H. destruct o; unfold exec_op_more in H.
  - exact (exec_op_wf fl rp s o s' Hs H).
  - exact (update_coordinates_wf s index lat lng use_editing s' Hs H).
  - exact (exec_op_wf fl rp s _ s' Hs H).
  - exact (exec_op_wf fl rp s _ s' Hs H).
  - injection H as <-. reflexivity.
  - injection H as <-. unfold session_wfb in *. simpl. apply andb_true_iff in Hs. tauto.
  - injection H as <-. unfold session_wfb in *. simpl. apply andb_true_iff in Hs.
    rewrite andb_true_r. tauto.
Qed.

Lemma reachable_more_wf fl rp s : reachable_more fl rp s -> session_wfb s = true.
Proof.
  induction 1 as [|s o s' _ IH Hstep]; [reflexivity|].
  exact (exec_op_more_wf fl rp s o s' IH Hstep).
Qed.

Lemma check_item_wf rp i d :
  item_wfb d = true ->
  check_item rp i (VDict d) = Valid \/ check_item rp i (VDict d) = Invalid (EWebLinkInvalid i).
Proof.
  unfold item_wfb, item_str_keys, key_has. cbn [forallb]. intro H.
  repeat rewrite andb_true_iff in H.
  destruct H as [[[Hn _] Ht] Hc].
  unfold check_item.
  destruct (dict_get "name" d) as [vn|]; [|discriminate].
  destruct (dict_get "center" d) as [[| | | | | |c]|]; try discriminate.
  simpl in Hc. unfold key_has in Hc. apply andb_true_iff in Hc as [Hla Hln].
  destruct (dict_get "lat" c) as [[| | | | | |]|]; try discriminate;
  destruct (dict_get "lng" c) as [[| | | | | |]|]; try discriminate;
  (destruct (dict_get "tags" d) as [[| | | | | |]|]; try discriminate;
   destruct (dict_get "webLink" d) as [w|]; [|left; reflexivity];
   destruct (py_truthy w && negb (validate_url (py_str rp w))); [right|left]; reflexivity).
Qed.

Lemma check_items_wf rp i l :
  forallb is_item l = true ->
  check_items rp i l = Valid \/ exists j, check_items rp i l = Invalid (EWebLinkInvalid j).
Proof.
  revert i. induction l as [|x r IH]; intros i H; simpl; [left; reflexivity|].
  simpl in H. apply andb_true_iff in H as [Hx Hr].
  destruct x as [| | | | | |d]; try discriminate.
  destruct (check_item_wf rp i d Hx) as [-> | ->].
  - apply IH. exact Hr.
  - right. exists i. reflexivity.
Qed.

Lemma validate_wf rp v :
  doc_wfb v = true ->
  validate_json_structure rp v = Valid \/ exists i, validate_json_structure rp v = Invalid (EWebLinkInvalid i).
Proof.
  intro H. destruct (doc_wfb_dict _ H) as [d ->].
  destruct (doc_get_data d H) as [l [Hl Hall]].
  destruct (doc_get_filter d H) as [fd [Hf Hfd]].
  simpl in H. unfold key_has in H. repeat rewrite andb_true_iff in H.
  destruct H as [[[[Hn Hde] Ho] _] _].
  unfold validate_json_structure. cbn [check_fields py_contains Json.bind].
  destruct (dict_get "name" d); [|discriminate].
  destruct (dict_get "description" d); [|discriminate].
  destruct (dict_get "origin" d); [|discriminate].
  rewrite Hf, Hl. cbn [py_getitem]. rewrite Hf, Hl.
  simpl in Hfd. unfold key_has in Hfd. apply andb_true_iff in Hfd as [Hi He].
  destruct (dict_get "inclusive" fd) as [[| | | | | |]|]; try discriminate.
  destruct (dict_get "exclusive" fd) as [[| | | | | |]|]; try discriminate.
  apply check_items_wf. exact Hall.
Qed.

Lemma count_items_bound test l :
  (forall x, In x l -> test x <> None) ->
  exists n, count_items test l = Some n /\ (n <= length l)%nat.
Proof.
  induction l as [|x r IH]; intro H; simpl.
  - exists 0%nat. split; [reflexivity|lia].
  - destruct (test x) as [b|] eqn:E; [|exfalso; apply (H x); [left; reflexivity | exact E]].
    assert (H' : forall y, In y r -> test y <> None) by (intros y Hy; apply H; right; exact Hy).
    destruct (IH H') as [n [Hn Hle]].
    cbn [Json.bind]. rewrite Hn. exists (if b then S n else n). split; [reflexivity|].
    destruct b; lia.
Qed.

Lemma item_tests_defined x :
  is_item x = true ->
  (forall k, In k item_str_keys -> str_field_test k x <> None) /\
  coord_test x <> None /\ tags_test x <> None.
Proof.
  destruct x as [| | | | | |d]; try discriminate. simpl. unfold item_wfb.
  intro H. repeat rewrite andb_true_iff in H. destruct H as [[Hs _] Hc].
  rewrite forallb_forall in Hs. split; [|split].
  - intros k Hk. specialize (Hs k Hk). unfold key_has in Hs. unfold str_field_test, dict_get_default.
    destruct (dict_get k d) as [[| | | | | |]|]; simpl; discriminate.
  - unfold key_has in Hc. unfold coord_test, dict_get_default.
    destruct (dict_get "center" d) as [[| | | | | |]|]; simpl; discriminate.
  - discriminate.
Qed.

Lemma stats_wf s ue :
  doc_wfb (tier s ue) = true ->
  exists d l st, tier s ue = VDict d /\ dict_get "data" d = Some (VList l) /\
    get_data_statistics s ue = Some st /\ total_locations st = length l /\
    (has_name st <= total_locations st)%nat /\ (has_address st <= total_locations st)%nat /\
    (has_coordinates st <= total_locations st)%nat /\ (has_phone st <= total_locations st)%nat /\
    (has_intro st <= total_locations st)%nat /\ (has_tags st <= total_locations st)%nat /\
    (has_weblink st <= total_locations st)%nat.
Proof.
  intro H. destruct (doc_wfb_dict _ H) as [d Hd]. rewrite Hd in H.
  destruct (doc_get_data d H) as [l [Hl Hall]].
  exists d, l. unfold get_data_statistics. rewrite Hd. unfold dict_get_default. rewrite Hl.
  destruct l as [|x r].
  - eexists. repeat split; try reflexivity; simpl; lia.
  - assert (Hi : forall y, In y (x :: r) -> is_item y = true)
      by (intros y Hy; rewrite forallb_forall in Hall; auto).
    assert (Hk : forall k, In k item_str_keys -> forall y, In y (x :: r) -> str_field_test k y <> None)
      by (intros k Hk0 y Hy; apply (proj1 (item_tests_defined y (Hi y Hy))); exact Hk0).
    destruct (count_items_bound (str_field_test "name") (x :: r)) as [hn [En Ln]]; [apply Hk; simpl; tauto|].
    destruct (count_items_bound (str_field_test "address") (x :: r)) as [ha [Ea La]]; [apply Hk; simpl; tauto|].
    destruct (count_items_bound coord_test (x :: r)) as [hc [Ec Lc]];
      [intros y Hy; apply (item_tests_defined y (Hi y Hy))|].
    destruct (count_items_bound (str_field_test "phone") (x :: r)) as [hp [Ep Lp]]; [apply Hk; simpl; tauto|].
    destruct (count_items_bound (str_field_test "intro") (x :: r)) as [hi [Ei Li]]; [apply Hk; simpl; tauto|].
    destruct (count_items_bound tags_test (x :: r)) as [ht [Et Lt]];
      [intros y Hy; apply (item_tests_defined y (Hi y Hy))|].
    destruct (count_items_bound (str_field_test "webLink") (x :: r)) as [hw [Ew Lw]]; [apply Hk; simpl; tauto|].
    cbn [py_truthy negb]. rewrite En. cbn [Json.bind]. rewrite Ea. cbn [Json.bind]. rewrite Ec.
    cbn [Json.bind]. rewrite Ep. cbn [Json.bind]. rewrite Ei. cbn [Json.bind]. rewrite Et.
    cbn [Json.bind]. rewrite Ew. cbn [Json.bind].
    eexists. split; [reflexivity|]. repeat split; cbn [has_name has_address has_coordinates has_phone has_intro has_tags has_weblink total_locations]; lia.
Qed.

Lemma dict_set_nonempty k v d : dict_set k v d <> [].
Proof. destruct d as [|[k0 v0] r]; simpl; [discriminate|]. destruct (String.eqb k k0); discriminate. Qed.

Lemma export_fold_nonempty re (it acc : dict) :
  acc <> [] ->
  fold_left (fun acc kv =>
               let v := export_value (fst kv) (snd kv) in
               if re && negb (py_truthy v) then acc else dict_set (fst kv) v acc) it acc <> [].
Proof.
  revert acc. induction it as [|kv r IH]; intros acc H; simpl; [exact H|].
  apply IH. destruct (re && negb (py_truthy (export_value (fst kv) (snd kv)))); [exact H|].
  apply dict_set_nonempty.
Qed.

Lemma export_fold_keeps re (it acc : dict) k v :
  In (k, v) it -> py_truthy (export_value k v) = true ->
  fold_left (fun acc kv =>
               let v := export_value (fst kv) (snd kv) in
               if re && negb (py_truthy v) then acc else dict_set (fst kv) v acc) it acc <> [].
Proof.
  revert acc. induction it as [|kv r IH]; intros acc Hin Ht; simpl; [destruct Hin|].
  destruct Hin as [->|Hin]; [|apply IH; assumption].
  apply export_fold_nonempty. simpl. rewrite Ht. simpl. destruct re; apply dict_set_nonempty.
Qed.

Lemma dict_get_in k d v : dict_get k d = Some v -> In (k, v) d.
Proof.
  induction d as [|[k0 v0] r IH]; simpl; [discriminate|].
  destruct (String.eqb k k0) eqn:E; intro H; [injection H as <-; apply String.eqb_eq in E; subst; left; reflexivity|].
  right; auto.
Qed.

Lemma export_item_wf re it :
  item_wfb it = true -> export_item re false (VDict it) = Some (Some (export_fields re it)).
Proof.
  intro H. unfold item_wfb in H. apply andb_true_iff in H as [_ Hc].
  unfold key_has in Hc. destruct (dict_get "center" it) as [v|] eqn:Ec; [|discriminate].
  unfold export_item.
  assert (Hne : export_fields re it <> []).
  { apply (export_fold_keeps re it [] "center" v); [apply dict_get_in; exact Ec|].
    destruct v as [| | | | | |c]; try discriminate. simpl in Hc.
    destruct c as [|kc r]; [discriminate|reflexivity]. }
  destruct (export_fields re it); [contradiction|reflexivity].
Qed.

Lemma export_items_wf re l :
  forallb is_item l = true ->
  exists outs, traverse (export_item re false) l = Some outs /\
    Forall2 (fun x y => exists it, x = VDict it /\ y = VDict (export_fields re it)) l
            (map VDict (keep_some outs)).
Proof.
  induction l as [|x r IH]; simpl; intro H.
  - exists []. split; [reflexivity|constructor].
  - apply andb_true_iff in H as [Hx Hr]. destruct (IH Hr) as [outs [Ho HF]].
    destruct x as [| | | | | |it]; try discriminate. simpl in Hx.
    rewrite (export_item_wf re it Hx). cbn [Json.bind]. rewrite Ho.
    exists (Some (export_fields re it) :: outs). split; [reflexivity|].
    simpl. constructor; [eexists; split; reflexivity|exact HF].
Qed.

Lemma export_wf re v :
  doc_wfb v = true ->
  exists d l l', v = VDict d /\ dict_get "data" d = Some (VList l) /\
    prepare_export_data v re false = Some (VDict (dict_set "data" (VList l') d)) /\
    Forall2 (fun x y => exists it, x = VDict it /\ y = VDict (export_fields re it)) l l'.
Proof.
  intro H. destruct (doc_wfb_dict _ H) as [d ->].
  destruct (doc_get_data d H) as [l [Hl Hall]].
  destruct (export_items_wf re l Hall) as [outs [Ho HF]].
  exists d, l, (map VDict (keep_some outs)). split; [reflexivity|]. split; [exact Hl|].
  split; [|exact HF].
  unfold prepare_export_data, deep_copy, dict_get_default. rewrite Hl. cbn [Json.bind]. rewrite Ho. reflexivity.
Qed.



Lemma dict_set_set k v v' d : dict_set k v (dict_set k v' d) = dict_set k v d.
Proof.
  induction d as [|[k0 v0] r IH]; simpl.
  - rewrite String.eqb_refl. reflexivity.
  - destruct (String.eqb k k0) eqn:E; simpl; rewrite E; [reflexivity|rewrite IH; reflexivity].
Qed.

Lemma dict_set_same k v d : dict_get k d = Some v -> dict_set k v d = d.
Proof.
  induction d as [|[k0 v0] r IH]; simpl; [discriminate|].
  destruct (String.eqb k k0); intro H; [injection H as ->; reflexivity|rewrite IH; auto].
Qed.

Lemma remove_nth_last {A} (l : list A) x : remove_nth (length l) (l ++ [x]) = l.
Proof. induction l as [|y r IH]; simpl; [reflexivity|rewrite IH; reflexivity]. Qed.

Lemma nth_replace_nth {A} n (x : A) l y : nth_error l n = Some y -> nth_error (replace_nth n x l) n = Some x.
Proof. revert n; induction l as [|z r IH]; intros [|n] H; simpl in *; try discriminate; auto. Qed.

Lemma length_replace_nth {A} n (x : A) l : length (replace_nth n x l) = length l.
Proof. revert n; induction l as [|z r IH]; intros [|n]; simpl; auto. Qed.

Lemma nth_replace_nth_other {A} n m (x : A) l : n <> m -> nth_error (replace_nth n x l) m = nth_error l m.
Proof. revert n m; induction l as [|z r IH]; intros [|n] [|m] H; simpl; auto; congruence. Qed.

Lemma session1_reachable_more : reachable_more f0 r0 session1.
Proof.
  apply (more_step f0 r0 init_session (Core (SetSavedJson doc1))); [apply more_init|].
  vm_compute. reflexivity.
Qed.

Lemma session2_reachable_more : reachable_more f0 r0 session2.
Proof.
  apply (more_step f0 r0 session1 (UpdateCoordinates 0 31%Q 121%Q false));
    [apply session1_reachable_more|].
  vm_compute. reflexivity.
Qed.

End MoreFacts.

(** * The map viewport claims *)
Module MapClaims.

Import MapUtils MapUtilsFacts Inputs.
Local Open Scope R_scope.

(** C1 (code defect): two valid points 100 m apart on one meridian need
    150 m with the padding factor 1.5.  The rule of the claim (smallest
    capacity still at least 150 m, floored at 10) gives level 15, but
    [calculate_zoom_level] scans the levels from 3 upwards, stops at level
    3 (capacity 1,000,000 m) and returns [max(10, 3)] = 10. *)
Theorem zoom_level_scans_widest_first :
  calculate_distance (lat p_a) (lng p_a) (lat p_100m) (lng p_100m) = 100 /\
  zoom_by_spec (100 * 1.5) = Some 15%Z /\
  calculate_zoom_level [p_a; p_100m] 1.5 = 10%Z.
Proof.
  unfold p_a, p_100m. simpl lat. simpl lng.
  replace (100 * 180 / (PI * 6371000)) with (18000 / (PI * 6371000))
    by (unfold Rdiv; ring).
  split; [|split].
  - rewrite distance_offset by lra. field.
  - unfold zoom_by_spec. simpl.
    repeat (destruct (Rle_dec _ _); try lra). reflexivity.
  - rewrite zoom_p_a_north by lra. apply scan_zoom_within. lra.
Qed.

(** C8 (code defect): with no valid point the center is the fallback and
    the zoom is 15, as claimed; but one valid point beside a point with a
    latitude and no longitude gets zoom 10, not 16 (the single-point test
    counts points by [lat != 0] only), and points 100 km apart get the same
    zoom as points 100 m apart (10), not a lower one. *)
Theorem viewport_degenerate_cases :
  (forall pts, valid_points pts = [] ->
     center (calculate_map_config pts 0 (-1) 5) = default_center /\
     calculate_zoom_level pts 1.5 = 15%Z) /\
  length (valid_points [p_a; p_lng0]) = 1%nat /\
  calculate_zoom_level [p_a; p_lng0] 1.5 = 10%Z /\
  calculate_distance (lat p_a) (lng p_a) (lat p_100km) (lng p_100km) = 100000 /\
  calculate_distance (lat p_a) (lng p_a) (lat p_100m) (lng p_100m) = 100 /\
  calculate_zoom_level [p_a; p_100km] 1.5 = 10%Z /\
  calculate_zoom_level [p_a; p_100m] 1.5 = 10%Z.
Proof.
  assert (Va : is_valid p_a = true) by (apply is_valid_intro; simpl; lra).
  assert (V0 : is_valid p_lng0 = false).
  { unfold is_valid, Rneqb. simpl. destruct (Req_dec_T 30 0); [lra|].
    destruct (Req_dec_T 0 0); [reflexivity|contradiction]. }
  split; [|split; [|split; [|split; [|split; [|split]]]]].
  - intros pts H. unfold calculate_map_config, calculate_center,
      calculate_zoom_level, calculate_bounds. rewrite H. simpl. auto.
  - unfold valid_points. simpl. rewrite Va, V0. reflexivity.
  - unfold calculate_zoom_level, calculate_bounds, valid_points. simpl filter.
    rewrite Va, V0. unfold lat_nonzero, Rneqb, p_a, p_lng0. simpl.
    destruct (Req_dec_T 30 0); [lra|]. simpl.
    rewrite distance_self, Rmult_0_l.
    destruct (Rle_dec 0 1000000); [reflexivity|lra].
  - unfold p_a, p_100km. simpl lat. simpl lng.
    replace (100000 * 180 / (PI * 6371000)) with (18000000 / (PI * 6371000))
      by (unfold Rdiv; ring).
    rewrite distance_offset by lra. field.
  - unfold p_a, p_100m. simpl lat. simpl lng.
    replace (100 * 180 / (PI * 6371000)) with (18000 / (PI * 6371000))
      by (unfold Rdiv; ring).
    rewrite distance_offset by lra. field.
  - unfold p_100km.
    replace (100000 * 180 / (PI * 6371000)) with (18000000 / (PI * 6371000))
      by (unfold Rdiv; ring).
    rewrite zoom_p_a_north by lra. apply scan_zoom_within. lra.
  - unfold p_100m.
    replace (100 * 180 / (PI * 6371000)) with (18000 / (PI * 6371000))
      by (unfold Rdiv; ring).
    rewrite zoom_p_a_north by lra. apply scan_zoom_within. lra.
Qed.

End MapClaims.

(** * The document store claims *)
Module DataClaims.

Import DataManager Shape ShapeFacts ExportFacts DocInputs.
Local Open Scope string_scope.

Lemma session1_reachable : reachable f0 r0 session1.
Proof.
  apply (reach_step f0 r0 init_session (SetSavedJson doc1)); [apply reach_init|].
  vm_compute. reflexivity.
Qed.

(** C3: in every session the methods can produce (the fresh session, then
    any sequence of calls, [set_saved_json] and [set_editing_json]
    included), both tiers have name, description and origin as strings,
    a filter with [inclusive] and [exclusive] mappings and a data list
    whose items all have name, address, phone, webName, webLink, intro,
    tags and a center with numeric lat and lng. *)
Theorem tiers_well_formed fl rp s :
  reachable fl rp s ->
  doc_wfb (saved_json s) = true /\ doc_wfb (editing_json s) = true.
Proof. intro H. apply andb_true_iff, (reachable_wf fl rp s H). Qed.

Lemma tiers_well_formed_witness :
  reachable f0 r0 session1 /\
  (doc_wfb (saved_json session1) = true /\ doc_wfb (editing_json session1) = true).
Proof.
  split; [apply session1_reachable|].
  apply (tiers_well_formed f0 r0 session1). apply session1_reachable.
Defined.

(** C4: [set_editing_json(D)] then [apply_edits()] leaves the saved
    document equal to the normalised [D] and no pending edits; when the
    normalisation raises, so does the sequence. *)
Theorem apply_commits fl rp s D :
  match run_ops fl rp s [SetEditingJson D; ApplyEdits] with
  | Some s' => Some (saved_json s') = clean_json_structure fl rp D /\ has_pending_edits s' = false
  | None => clean_json_structure fl rp D = None
  end.
Proof.
  cbv beta iota delta [run_ops exec_op Json.bind].
  destruct (clean_json_structure fl rp D); cbn; auto.
Qed.

(** C5: from any session, [start_editing()] then [discard_edits()] leaves
    the editing document equal to the saved one, the saved one unchanged
    and no pending edits. *)
Theorem start_discard_round_trip fl rp s :
  exists s', run_ops fl rp s [StartEditing; DiscardEdits] = Some s' /\
             editing_json s' = saved_json s' /\ saved_json s' = saved_json s /\
             has_pending_edits s' = false.
Proof. eexists. split; [reflexivity|]. cbn. auto. Qed.

(** C10: in every reachable session, [has_saved_json] is true exactly when
    the saved data list is non-empty, whatever the metadata. *)
Theorem has_saved_iff_items fl rp s :
  reachable fl rp s ->
  (has_saved_json s = true <->
   exists d items, saved_json s = VDict d /\ dict_get "data" d = Some (VList items) /\ items <> []).
Proof.
  intro H. apply reachable_wf in H. apply andb_true_iff in H as [H _].
  destruct (doc_wfb_dict _ H) as [d Hd]. rewrite Hd in H.
  destruct (doc_get_data d H) as [l [Hl _]].
  unfold has_saved_json. rewrite Hd, Hl. split.
  - intro Ht. exists d, l. repeat split; auto. intros ->. discriminate.
  - intros (d' & items & E & Hg & Hne). injection E as <-. rewrite Hl in Hg.
    injection Hg as <-. destruct l; [contradiction|reflexivity].
Qed.

Lemma has_saved_iff_items_witness :
  reachable f0 r0 session1 /\
  (has_saved_json session1 = true <->
   exists d items, saved_json session1 = VDict d /\ dict_get "data" d = Some (VList items) /\ items <> []).
Proof.
  split; [apply session1_reachable|].
  apply (has_saved_iff_items f0 r0 session1). apply session1_reachable.
Defined.

(** The item [{name: "a", center: {lat: 95, lng: 10}}] keeps its center as
    [{lat: 95.0, lng: 10.0}]: no reset to (0, 0). *)
Lemma clean_center_out_of_range :
  clean_data_item f0 r0 item95 = Some item95_clean /\
  dict_get "center" item95_clean =
    Some (VDict [("lat", VFloat (inject_Z 95)); ("lng", VFloat (inject_Z 10))]) /\
  dict_get "center" item95_clean <> Some zero_center.
Proof. vm_compute. split; [reflexivity|split; [reflexivity|discriminate]]. Qed.

(** C2 (as amended): item normalisation checks no range.  A center that is
    a mapping becomes [{lat: float(lat), lng: float(lng)}], a missing
    coordinate reading as 0, whatever the values; only a missing or
    non-mapping center becomes [{lat: 0, lng: 0}]. *)
Theorem clean_center_no_range_check fl rp it d :
  clean_data_item fl rp (VDict it) = Some d ->
  (dict_get "center" d = Some zero_center /\ forall cd, dict_get "center" it <> Some (VDict cd)) \/
  (exists cd la ln, dict_get "center" it = Some (VDict cd) /\
     py_float fl (dict_get_default "lat" (VInt 0) cd) = Some la /\
     py_float fl (dict_get_default "lng" (VInt 0) cd) = Some ln /\
     dict_get "center" d = Some (VDict [("lat", VFloat la); ("lng", VFloat ln)])).
Proof.
  intro H. unfold clean_data_item, Json.bind in H.
  destruct (clean_str_fields rp _ _ _) as [acc|]; [|discriminate].
  destruct (field_truthy _ _) as [ow|]; [|discriminate].
  cbn [py_contains py_getitem] in H.
  set (acc1 := dict_set "webLink" _ acc) in H. clearbody acc1.
  destruct (dict_get "tags" it) as [t|];
    cbn [py_contains py_getitem] in H;
    set (acc2 := dict_set "tags" _ acc1) in H; clearbody acc2;
    (destruct (dict_get "center" it) as [c|] eqn:Ec;
     [destruct c as [| | | | | |cd];
      try (injection H as <-; left; rewrite dict_get_set; split; [reflexivity|];
           intros cd' E; discriminate E);
      right; destruct (py_float fl (dict_get_default "lat" (VInt 0) cd)) as [la|] eqn:Ela; [|discriminate];
      destruct (py_float fl (dict_get_default "lng" (VInt 0) cd)) as [ln|] eqn:Eln; [|discriminate];
      injection H as <-; exists cd, la, ln; rewrite dict_get_set; auto
     |injection H as <-; left; rewrite dict_get_set; split; [reflexivity|]; intros cd' E; discriminate E]).
Qed.

Lemma clean_center_no_range_check_witness :
  clean_data_item f0 r0 item95 = Some item95_clean /\
  ((dict_get "center" item95_clean = Some zero_center /\
    forall cd, dict_get "center" [("name", VStr "a"); ("center", VDict [("lat", VInt 95); ("lng", VInt 10)])]
               <> Some (VDict cd)) \/
   (exists cd la ln,
      dict_get "center" [("name", VStr "a"); ("center", VDict [("lat", VInt 95); ("lng", VInt 10)])]
        = Some (VDict cd) /\
      py_float f0 (dict_get_default "lat" (VInt 0) cd) = Some la /\
      py_float f0 (dict_get_default "lng" (VInt 0) cd) = Some ln /\
      dict_get "center" item95_clean = Some (VDict [("lat", VFloat la); ("lng", VFloat ln)]))).
Proof.
  assert (H : clean_data_item f0 r0 item95 = Some item95_clean) by (vm_compute; reflexivity).
  split; [exact H|]. exact (clean_center_no_range_check f0 r0 _ _ H).
Defined.

(** C6 (code defect): [clean_text] collapses runs of spaces before it turns
    tabs into spaces, so ["a \tb"] becomes ["a  b"] with two spaces, which a
    second pass turns into ["a b"]; an item named ["a \tb"] changes name
    when normalised twice. *)
Theorem clean_text_not_idempotent :
  Text.clean_text tab_str = "a  b" /\ Text.clean_text "a  b" = "a b" /\
  match clean_data_item f0 r0 (VDict [("name", VStr tab_str)]) with
  | Some d1 =>
      dict_get "name" d1 = Some (VStr "a  b") /\
      match clean_data_item f0 r0 (VDict d1) with
      | Some d2 => dict_get "name" d2 = Some (VStr "a b")
      | None => False
      end
  | None => False
  end.
Proof. vm_compute. repeat split. Qed.

(** A document missing [data] and [description] fails on [description]. *)
Lemma validate_missing_description :
  validate_json_structure r0 (VDict [("name", VStr "m")]) = Invalid (EMissingField "description").
Proof. reflexivity. Qed.

(** C7 (as amended): a document missing [data] fails validation with the
    missing-field message for the first absent key among name,
    description, origin, filter, data; the message names [data] exactly
    when the other four keys are present. *)
Theorem validate_missing_data rp d :
  dict_get "data" d = None ->
  validate_json_structure rp (VDict d) =
    Invalid (EMissingField (first_missing d ["name"; "description"; "origin"; "filter"; "data"])) /\
  (validate_json_structure rp (VDict d) = Invalid (EMissingField "data") <->
   forall f, In f ["name"; "description"; "origin"; "filter"] -> dict_get f d <> None).
Proof.
  intro Hd. unfold validate_json_structure. cbn [check_fields py_contains Json.bind first_missing].
  rewrite Hd.
  destruct (dict_get "name" d) eqn:E1;
  [destruct (dict_get "description" d) eqn:E2;
   [destruct (dict_get "origin" d) eqn:E3;
    [destruct (dict_get "filter" d) eqn:E4|]|]|];
  (split; [reflexivity|]); split; intro H; try discriminate;
  try (exfalso; first [ apply (H "name"); [simpl; tauto | assumption]
                      | apply (H "description"); [simpl; tauto | assumption]
                      | apply (H "origin"); [simpl; tauto | assumption]
                      | apply (H "filter"); [simpl; tauto | assumption] ]);
  try reflexivity;
  intros f Hf; simpl in Hf;
  repeat destruct Hf as [<-|Hf]; try contradiction; congruence.
Qed.

Lemma validate_missing_data_witness :
  dict_get "data" [("name", VStr "m")] = None /\
  (validate_json_structure r0 (VDict [("name", VStr "m")]) =
     Invalid (EMissingField (first_missing [("name", VStr "m")]
                                           ["name"; "description"; "origin"; "filter"; "data"])) /\
   (validate_json_structure r0 (VDict [("name", VStr "m")]) = Invalid (EMissingField "data") <->
    forall f, In f ["name"; "description"; "origin"; "filter"] -> dict_get f [("name", VStr "m")] <> None)).
Proof.
  split; [reflexivity|]. apply (validate_missing_data r0 [("name", VStr "m")]). reflexivity.
Defined.

(** C9: for a document whose data is a list of items with distinct keys,
    the export keeps every top-level key other than [data] unchanged and
    replaces [data] by the exported items, in order; each source item
    exports to the item holding each key's cleaned value unless that value
    is empty (with [remove_empty]), and is dropped exactly when that item is
    empty or, with [remove_zero_coords], its center is (0, 0). *)
Theorem export_filtering re rz d items out :
  dict_get "data" d = Some (VList items) ->
  Forall (fun v => match v with VDict it => NoDup (map fst it) | _ => True end) items ->
  prepare_export_data (VDict d) re rz = Some out ->
  exists d' outs,
    out = VDict d' /\
    (forall k, k <> "data" -> dict_get k d' = dict_get k d) /\
    dict_get "data" d' = Some (VList (map VDict (keep_some outs))) /\
    Forall2 (export_rel re rz) items outs.
Proof.
  intros Hd Hnd H. unfold prepare_export_data, deep_copy, Json.bind, dict_get_default in H.
  rewrite Hd in H.
  destruct (traverse (export_item re rz) items) as [outs|] eqn:Et; [|discriminate].
  injection H as <-. eexists; exists outs. split; [reflexivity|]. split; [|split].
  - intros k Hk. rewrite dict_get_set. apply String.eqb_neq in Hk. rewrite Hk. reflexivity.
  - rewrite dict_get_set, String.eqb_refl. reflexivity.
  - apply traverse_Forall2 in Et. clear Hd.
    induction Et as [|x y l ys Hxy _ IH]; constructor.
    + inversion Hnd; subst. destruct x; try discriminate. apply export_item_rel; assumption.
    + apply IH. inversion Hnd; assumption.
Qed.

Lemma export_filtering_witness :
  dict_get "data" doc9 = Some (VList items9) /\
  Forall (fun v => match v with VDict it => NoDup (map fst it) | _ => True end) items9 /\
  prepare_export_data (VDict doc9) true true = Some out9 /\
  exists d' outs,
    out9 = VDict d' /\
    (forall k, k <> "data" -> dict_get k d' = dict_get k doc9) /\
    dict_get "data" d' = Some (VList (map VDict (keep_some outs))) /\
    Forall2 (export_rel true true) items9 outs.
Proof.
  assert (H1 : dict_get "data" doc9 = Some (VList items9)) by reflexivity.
  assert (H2 : Forall (fun v => match v with VDict it => NoDup (map fst it) | _ => True end) items9).
  { repeat constructor; simpl; intuition discriminate. }
  assert (H3 : prepare_export_data (VDict doc9) true true = Some out9) by (vm_compute; reflexivity).
  split; [exact H1|]. split; [exact H2|]. split; [exact H3|].
  apply (export_filtering true true doc9 items9 out9 H1 H2 H3).
Defined.

(** On [doc9] with both options: the empty phone of item A is omitted and
    item B, at (0, 0), is dropped. *)
Lemma export_doc9 :
  out9 = VDict [("name", VStr "Map"); ("origin", VStr "web");
                ("data", VList [VDict [("name", VStr "A");
                                       ("center", VDict [("lat", VFloat 30); ("lng", VFloat 120)])]])].
Proof. vm_compute. reflexivity. Qed.

End DataClaims.

(** ** Further properties of the text normalisation *)
Module ExtraTextClaims.

Import Text TextFacts.

(** X1: [clean_text] returns the empty string exactly when its argument
    consists of whitespace only ([str.isspace] characters), the empty
    string included. *)
Theorem clean_text_empty_exactly_blank s : clean_text s = ""%string <-> forallb is_py_space (lstr s) = true.
Proof.
  rewrite <- strip_nil_iff. split.
  - intro H. apply (f_equal lstr) in H. rewrite lstr_clean_text in H.
    destruct (strip (lstr s)) as [|c r] eqn:E; [reflexivity|].
    destruct (strip_nonempty (lstr s)) as [c' [Hin Hc]]; [rewrite E; discriminate|].
    apply strip_sub in Hin. pose proof (clean_text_l_in c' _ Hin Hc) as H'. rewrite H in H'. destruct H'.
  - intro H. unfold clean_text. fold (lstr s). rewrite (clean_text_l_nil _ H). reflexivity.
Qed.

(** X2: the result of [clean_text] never contains a tab, carriage return,
    form feed or vertical tab. *)
Theorem clean_text_no_tab_chars s :
  forallb (fun c => negb (is_tab_class c)) (lstr (clean_text s)) = true.
Proof. apply clean_text_tab_free. Qed.

(** X3: after [set_extracted_text(t)], [has_extracted_text()] is true
    exactly when [t] has a character that is not whitespace: the cleaning
    never turns such a text into a blank one. *)
Theorem has_extracted_text_after_set fl rp s t :
  exists s', DataManager.exec_op fl rp s (DataManager.SetExtractedText t) = Some s' /\
    DataManagerMore.has_extracted_text s' = existsb (fun c => negb (is_py_space c)) (lstr t).
Proof.
  eexists. split; [reflexivity|]. unfold DataManagerMore.has_extracted_text. cbn [DataManager.extracted_text].
  rewrite lstr_clean_text.
  destruct (existsb (fun c => negb (is_py_space c)) (lstr t)) eqn:E.
  - apply existsb_exists in E as [c [Hin Hc]]. apply negb_true_iff in Hc.
    pose proof (strip_in c _ (clean_text_l_in c _ Hin Hc) Hc) as H.
    destruct (strip (clean_text_l (lstr t))); [destruct H|reflexivity].
  - destruct (strip (clean_text_l (lstr t))) as [|c r] eqn:E2; [reflexivity|].
    destruct (strip_nonempty (clean_text_l (lstr t))) as [c' [Hin Hc]]; [rewrite E2; discriminate|].
    apply strip_sub, clean_text_l_sub in Hin. destruct Hin as [[->|[->|Hin]] _]; try discriminate Hc.
    assert (existsb (fun c => negb (is_py_space c)) (lstr t) = true)
      by (apply existsb_exists; exists c'; rewrite Hc; auto).
    congruence.
Qed.

(** X4: the result of [clean_url] never contains a whitespace character. *)
Theorem clean_url_no_whitespace s : forallb (fun c => negb (is_py_space c)) (lstr (clean_url s)) = true.
Proof.
  destruct (clean_url_shape s) as [->|[f [_ [Hs ->]]]]; [reflexivity|].
  destruct (starts_with_scheme f); [rewrite lstr_sola; exact Hs|].
  destruct (domain_prefix f); [rewrite https_prefix, lstr_sola, forallb_app, Hs; reflexivity|].
  destruct (has_prefix (lstr "www.") f); [rewrite https_prefix, lstr_sola, forallb_app, Hs; reflexivity|].
  rewrite lstr_sola; exact Hs.
Qed.

(** X5: [clean_url] is idempotent: cleaning a cleaned URL changes nothing
    (a prefixed [https://] is not prefixed again). *)
Theorem clean_url_idempotent s : clean_url (clean_url s) = clean_url s.
Proof.
  destruct (clean_url_shape s) as [->|[f [Hn [Hs ->]]]]; [reflexivity|].
  assert (Hh : forall b, b = domain_prefix f \/ b = has_prefix (lstr "www.") f ->
            clean_url (string_of_list_ascii (lstr "https://" ++ f)) = string_of_list_ascii (lstr "https://" ++ f)).
  { intros _ _. rewrite clean_url_fixed.
    - unfold starts_with_scheme. rewrite has_prefix_app, orb_true_r. reflexivity.
    - destruct f; [contradiction|]. simpl. discriminate.
    - rewrite forallb_app, Hs. reflexivity. }
  destruct (starts_with_scheme f) eqn:E1; [rewrite clean_url_fixed, E1; auto|].
  destruct (domain_prefix f) eqn:E2; [rewrite https_prefix; apply (Hh true); auto|].
  destruct (has_prefix (lstr "www.") f) eqn:E3; [rewrite https_prefix; apply (Hh true); auto|].
  rewrite clean_url_fixed, E1, E2, E3; auto.
Qed.

(** X6: every tag returned by [clean_tags] is a non-empty string, the
    [clean_text] of some string, free of tab, carriage return, form feed
    and vertical tab characters. *)
Theorem clean_tags_nonempty_clean v t :
  In t (DataManager.clean_tags v) ->
  t <> ""%string /\ forallb (fun c => negb (is_tab_class c)) (lstr t) = true /\
  exists x, t = clean_text x.
Proof.
  destruct v as [| | | | |l|]; simpl; try tauto.
  intro H. apply in_flat_map in H as [x [_ Hx]].
  destruct x as [| | | |u| |]; try destruct Hx.
  destruct (String.eqb (clean_text u) "") eqn:E; [destruct Hx|].
  destruct Hx as [<-|[]]. split; [apply String.eqb_neq; exact E|].
  split; [apply clean_text_tab_free|exists u; reflexivity].
Qed.

Lemma clean_tags_nonempty_clean_witness :
  In "a"%string (DataManager.clean_tags (VList [VStr " a "%string; VStr "  "%string; VInt 3])) /\
  ("a"%string <> ""%string /\ forallb (fun c => negb (is_tab_class c)) (lstr "a") = true /\
   exists x, "a"%string = clean_text x).
Proof.
  split; [vm_compute; left; reflexivity|].
  apply (clean_tags_nonempty_clean (VList [VStr " a "%string; VStr "  "%string; VInt 3])).
  vm_compute. left. reflexivity.
Defined.

End ExtraTextClaims.

(** ** Further properties of DataManager *)
Module ExtraDataClaims.

Import DataManager Shape ShapeFacts ExportFacts DocInputs DataManagerMore MoreInputs MoreFacts.
Local Open Scope string_scope.

(** X7: in every session the methods produce, [update_coordinates], the
    three resets, [copy_saved_to_editing] and [save_editing_to_saved]
    included, both tiers keep the normalised shape: name, description and
    origin strings, a filter with [inclusive] and [exclusive] mappings and
    a data list whose items have every string key, a tag list and a
    center with numeric lat and lng. *)
Theorem tiers_well_formed_all_methods fl rp s :
  reachable_more fl rp s ->
  doc_wfb (saved_json s) = true /\ doc_wfb (editing_json s) = true.
Proof. intro H. apply andb_true_iff, (reachable_more_wf fl rp s H). Qed.

Lemma tiers_well_formed_all_methods_witness :
  reachable_more f0 r0 session2 /\
  (doc_wfb (saved_json session2) = true /\ doc_wfb (editing_json session2) = true).
Proof.
  split; [apply session2_reachable_more|].
  apply (tiers_well_formed_all_methods f0 r0 session2). apply session2_reachable_more.
Defined.

(** X8: in every session the methods produce, [validate_json_structure]
    on either tier either succeeds or fails on a web link of an item
    (a cleaned URL that does not match the URL pattern); no other error
    can occur. *)
Theorem validate_only_weblink_errors fl rp s ue :
  reachable_more fl rp s ->
  validate_json_structure rp (tier s ue) = Valid \/
  exists i, validate_json_structure rp (tier s ue) = Invalid (EWebLinkInvalid i).
Proof.
  intro H. apply validate_wf. pose proof (reachable_more_wf fl rp s H) as Hw.
  apply andb_true_iff in Hw as [Hs He]. destruct ue; assumption.
Qed.

Lemma validate_only_weblink_errors_witness :
  reachable_more f0 r0 session2 /\
  (validate_json_structure r0 (tier session2 false) = Valid \/
   exists i, validate_json_structure r0 (tier session2 false) = Invalid (EWebLinkInvalid i)).
Proof.
  split; [apply session2_reachable_more|].
  apply (validate_only_weblink_errors f0 r0 session2 false). apply session2_reachable_more.
Defined.

(** X9: in every session the methods produce, [get_data_statistics] on
    either tier does not raise; [total_locations] is the length of the
    data list and each of the seven counts is at most that total. *)
Theorem statistics_bounded fl rp s ue :
  reachable_more fl rp s ->
  exists d l st, tier s ue = VDict d /\ dict_get "data" d = Some (VList l) /\
    get_data_statistics s ue = Some st /\ total_locations st = length l /\
    (has_name st <= total_locations st)%nat /\ (has_address st <= total_locations st)%nat /\
    (has_coordinates st <= total_locations st)%nat /\ (has_phone st <= total_locations st)%nat /\
    (has_intro st <= total_locations st)%nat /\ (has_tags st <= total_locations st)%nat /\
    (has_weblink st <= total_locations st)%nat.
Proof.
  intro H. apply stats_wf. pose proof (reachable_more_wf fl rp s H) as Hw.
  apply andb_true_iff in Hw as [Hs He]. destruct ue; assumption.
Qed.

Lemma statistics_bounded_witness :
  reachable_more f0 r0 session2 /\
  (exists d l st, tier session2 false = VDict d /\ dict_get "data" d = Some (VList l) /\
    get_data_statistics session2 false = Some st /\ total_locations st = length l /\
    (has_name st <= total_locations st)%nat /\ (has_address st <= total_locations st)%nat /\
    (has_coordinates st <= total_locations st)%nat /\ (has_phone st <= total_locations st)%nat /\
    (has_intro st <= total_locations st)%nat /\ (has_tags st <= total_locations st)%nat /\
    (has_weblink st <= total_locations st)%nat).
Proof.
  split; [apply session2_reachable_more|].
  apply (statistics_bounded f0 r0 session2 false). apply session2_reachable_more.
Defined.

(** X10: in every session the methods produce, [export_from_saved_json]
    with [remove_zero_coords=False] does not raise and drops no item: the
    exported data list has one entry per saved item, the re-cleaned
    fields of that item, and every other top-level key is kept as it is. *)
Theorem export_keeps_every_item fl rp s re :
  reachable_more fl rp s ->
  exists d l l', saved_json s = VDict d /\ dict_get "data" d = Some (VList l) /\
    export_from_saved_json s re false = Some (VDict (dict_set "data" (VList l') d)) /\
    Forall2 (fun x y => exists it, x = VDict it /\ y = VDict (export_fields re it)) l l'.
Proof.
  intro H. apply export_wf. pose proof (reachable_more_wf fl rp s H) as Hw.
  apply andb_true_iff in Hw as [Hs _]. exact Hs.
Qed.

Lemma export_keeps_every_item_witness :
  reachable_more f0 r0 session2 /\
  (exists d l l', saved_json session2 = VDict d /\ dict_get "data" d = Some (VList l) /\
    export_from_saved_json session2 true false = Some (VDict (dict_set "data" (VList l') d)) /\
    Forall2 (fun x y => exists it, x = VDict it /\ y = VDict (export_fields true it)) l l').
Proof.
  split; [apply session2_reachable_more|].
  apply (export_keeps_every_item f0 r0 session2 true). apply session2_reachable_more.
Defined.



(** X12: adding an item to the editing document and then removing the
    item at the old length (the one just appended) gives back the editing
    document as it was, with [has_pending_edits] set. *)
Theorem add_then_remove_last fl rp s d l item c :
  editing_json s = VDict d -> dict_get "data" d = Some (VList l) ->
  clean_data_item fl rp item = Some c ->
  run_ops fl rp s [AddEditingDataItem item; RemoveEditingDataItem (Z.of_nat (length l))] =
  Some (with_editing s (editing_json s) true).
Proof.
  intros He Hd Hc. cbv beta iota delta [run_ops exec_op Json.bind].
  rewrite Hc, He. cbn [py_getitem py_setitem]. rewrite Hd.
  cbn [editing_json with_editing]. cbn [py_getitem]. rewrite dict_get_set, String.eqb_refl.
  rewrite length_app. simpl length.
  replace ((0 <=? Z.of_nat (length l))%Z && (Z.of_nat (length l) <? Z.of_nat (length l + 1))%Z)
    with true by (symmetry; apply andb_true_iff; split; [apply Z.leb_le|apply Z.ltb_lt]; lia).
  rewrite Nat2Z.id, remove_nth_last. cbn [py_setitem]. rewrite dict_set_set, (dict_set_same _ _ _ Hd).
  reflexivity.
Qed.

Lemma add_then_remove_last_witness :
  editing_json session1 = VDict (dict_of (editing_json session1)) /\
  dict_get "data" (dict_of (editing_json session1)) = Some (VList []) /\
  clean_data_item f0 r0 item95 = Some item95_clean /\
  run_ops f0 r0 session1 [AddEditingDataItem item95; RemoveEditingDataItem (Z.of_nat (length (@nil value)))] =
  Some (with_editing session1 (editing_json session1) true).
Proof.
  split; [vm_compute; reflexivity|]. split; [vm_compute; reflexivity|].
  split; [vm_compute; reflexivity|].
  apply (add_then_remove_last f0 r0 session1 (dict_of (editing_json session1)) [] item95 item95_clean);
    vm_compute; reflexivity.
Defined.

(** X13: [update_editing_data_item] and [remove_editing_data_item] with an
    index outside [0, len(data))], a negative index included, do nothing:
    the session is unchanged and the item is not even cleaned. *)
Theorem edit_index_out_of_range fl rp s d l index item :
  editing_json s = VDict d -> dict_get "data" d = Some (VList l) ->
  ~ (0 <= index < Z.of_nat (length l))%Z ->
  exec_op fl rp s (UpdateEditingDataItem index item) = Some s /\
  exec_op fl rp s (RemoveEditingDataItem index) = Some s.
Proof.
  intros He Hd Hr. unfold exec_op, Json.bind. rewrite He. cbn [py_getitem]. rewrite Hd.
  replace ((0 <=? index)%Z && (index <? Z.of_nat (length l))%Z) with false; [split; reflexivity|].
  symmetry. apply Bool.not_true_iff_false. rewrite andb_true_iff, Z.leb_le, Z.ltb_lt. exact Hr.
Qed.

Lemma edit_index_out_of_range_witness :
  editing_json session1_added = VDict (dict_of (editing_json session1_added)) /\
  dict_get "data" (dict_of (editing_json session1_added)) =
    Some (VList (data_of (dict_of (editing_json session1_added)))) /\
  ~ (0 <= -1 < Z.of_nat (length (data_of (dict_of (editing_json session1_added)))))%Z /\
  (exec_op f0 r0 session1_added (UpdateEditingDataItem (-1) item95) = Some session1_added /\
   exec_op f0 r0 session1_added (RemoveEditingDataItem (-1)) = Some session1_added).
Proof.
  split; [vm_compute; reflexivity|]. split; [vm_compute; reflexivity|]. split; [lia|].
  apply (edit_index_out_of_range f0 r0 session1_added (dict_of (editing_json session1_added))
           (data_of (dict_of (editing_json session1_added))) (-1) item95);
    [vm_compute; reflexivity|vm_compute; reflexivity|lia].
Defined.

(** X14: [update_coordinates] with an index outside [0, len(data))] does
    nothing; in particular on a document without a [data] key it never
    writes. *)
Theorem update_coordinates_ignores_bad_index s index lat lng ue d n :
  tier s ue = VDict d -> py_len (dict_get_default "data" (VList []) d) = Some n ->
  ~ (0 <= index < Z.of_nat n)%Z ->
  update_coordinates s index lat lng ue = Some s.
Proof.
  intros Ht Hn Hr. unfold update_coordinates. rewrite Ht, Hn. cbn [Json.bind].
  replace ((0 <=? index)%Z && (index <? Z.of_nat n)%Z) with false; [reflexivity|].
  symmetry. apply Bool.not_true_iff_false. rewrite andb_true_iff, Z.leb_le, Z.ltb_lt. exact Hr.
Qed.

Lemma update_coordinates_ignores_bad_index_witness :
  tier session1 false = VDict (dict_of (saved_json session1)) /\
  py_len (dict_get_default "data" (VList []) (dict_of (saved_json session1))) = Some 1%nat /\
  ~ (0 <= 1 < Z.of_nat 1)%Z /\
  update_coordinates session1 1 31%Q 121%Q false = Some session1.
Proof.
  split; [vm_compute; reflexivity|]. split; [vm_compute; reflexivity|]. split; [lia|].
  apply (update_coordinates_ignores_bad_index session1 1 31%Q 121%Q false
           (dict_of (saved_json session1)) 1%nat); [vm_compute; reflexivity|vm_compute; reflexivity|lia].
Defined.

(** X15: on a well-formed tier, [update_coordinates] with an index in
    range sets the center of that item to exactly [{lat, lng}]: the list
    keeps its length, every other item is unchanged and the other tier is
    not touched. *)
Theorem update_coordinates_sets_center s index lat lng ue d l :
  tier s ue = VDict d -> dict_get "data" d = Some (VList l) ->
  forallb is_item l = true ->
  (0 <= index < Z.of_nat (length l))%Z ->
  exists s' d' l' it,
    update_coordinates s index lat lng ue = Some s' /\
    tier s' ue = VDict d' /\ dict_get "data" d' = Some (VList l') /\
    length l' = length l /\
    nth_error l' (Z.to_nat index) = Some (VDict it) /\
    dict_get "center" it = Some (VDict [("lat", VFloat lat); ("lng", VFloat lng)]) /\
    (forall m, m <> Z.to_nat index -> nth_error l' m = nth_error l m) /\
    tier s' (negb ue) = tier s (negb ue).
Proof.
  intros Ht Hd Hall Hr. unfold update_coordinates. rewrite Ht. unfold dict_get_default. rewrite Hd.
  cbn [py_len Json.bind].
  replace ((0 <=? index)%Z && (index <? Z.of_nat (length l))%Z) with true
    by (symmetry; apply andb_true_iff; split; [apply Z.leb_le|apply Z.ltb_lt]; lia).
  destruct (nth_error l (Z.to_nat index)) as [x|] eqn:Ex;
    [|apply nth_error_None in Ex; lia].
  assert (Hx : is_item x = true)
    by (rewrite forallb_forall in Hall; apply Hall; eapply nth_error_In; exact Ex).
  destruct x as [| | | | | |it]; try discriminate.
  set (it' := dict_set "center" (VDict [("lat", VFloat lat); ("lng", VFloat lng)]) it).
  set (l' := replace_nth (Z.to_nat index) (VDict it') l).
  exists (if ue then with_editing s (VDict (dict_set "data" (VList l') d)) true
          else with_saved s (VDict (dict_set "data" (VList l') d)) (has_pending_edits s)).
  exists (dict_set "data" (VList l') d), l', it'.
  split; [reflexivity|].
  split; [destruct ue; reflexivity|].
  split; [rewrite dict_get_set, String.eqb_refl; reflexivity|].
  split; [apply length_replace_nth|].
  split; [eapply nth_replace_nth; exact Ex|].
  split; [unfold it'; rewrite dict_get_set, String.eqb_refl; reflexivity|].
  split; [intros m Hm; apply nth_replace_nth_other; auto|].
  destruct ue; reflexivity.
Qed.

Lemma update_coordinates_sets_center_witness :
  tier session1 false = VDict (dict_of (saved_json session1)) /\
  dict_get "data" (dict_of (saved_json session1)) =
    Some (VList (data_of (dict_of (saved_json session1)))) /\
  forallb is_item (data_of (dict_of (saved_json session1))) = true /\
  (0 <= 0 < Z.of_nat (length (data_of (dict_of (saved_json session1)))))%Z /\
  exists s' d' l' it,
    update_coordinates session1 0 31%Q 121%Q false = Some s' /\
    tier s' false = VDict d' /\ dict_get "data" d' = Some (VList l') /\
    length l' = length (data_of (dict_of (saved_json session1))) /\
    nth_error l' (Z.to_nat 0) = Some (VDict it) /\
    dict_get "center" it = Some (VDict [("lat", VFloat 31%Q); ("lng", VFloat 121%Q)]) /\
    (forall m, m <> Z.to_nat 0 -> nth_error l' m = nth_error (data_of (dict_of (saved_json session1))) m) /\
    tier s' (negb false) = tier session1 (negb false).
Proof.
  assert (Hlen : length (data_of (dict_of (saved_json session1))) = 1%nat)
    by (vm_compute; reflexivity).
  split; [vm_compute; reflexivity|]. split; [vm_compute; reflexivity|].
  split; [vm_compute; reflexivity|]. split; [rewrite Hlen; lia|].
  apply (update_coordinates_sets_center session1 0 31%Q 121%Q false (dict_of (saved_json session1))
           (data_of (dict_of (saved_json session1))));
    [vm_compute; reflexivity|vm_compute; reflexivity|vm_compute; reflexivity|rewrite Hlen; lia].
Defined.

(** X16: the normalisation of a document ([_clean_json_structure]) keeps
    its items one for one: when [data] is a list, the normalised list has
    the cleaned form of each of its items, in order; when [data] is
    missing or not a list, the normalised list is empty. *)
Theorem normalize_keeps_items fl rp dj c :
  clean_json_structure fl rp (VDict dj) = Some c ->
  exists d l', c = VDict d /\ dict_get "data" d = Some (VList l') /\
    match dict_get "data" dj with
    | Some (VList l) => exists ys, l' = map VDict ys /\
                          Forall2 (fun x y => clean_data_item fl rp x = Some y) l ys
    | _ => l' = []
    end.
Proof.
  intro H. unfold clean_json_structure, Json.bind in H.
  destruct (clean_meta rp (VDict dj) "name") as [n|]; [|discriminate H].
  destruct (clean_meta rp (VDict dj) "description") as [de|]; [|discriminate H].
  destruct (clean_meta rp (VDict dj) "origin") as [o|]; [|discriminate H].
  cbn [py_contains py_getitem] in H.
  destruct (match dict_get "filter" dj with Some _ => true | None => false end);
    [destruct (dict_get "filter" dj)|]; try discriminate H.
  - destruct (dict_get "data" dj) as [dv|] eqn:Ed.
    + destruct dv; try (injection H as <-; eexists _, _; split; [reflexivity|]; split; [reflexivity|reflexivity]).
      destruct (traverse (clean_data_item fl rp) l) as [ys|] eqn:Et; [|discriminate H].
      injection H as <-. eexists _, _. split; [reflexivity|]. split; [reflexivity|].
      exists ys. split; [reflexivity|]. apply traverse_Forall2. exact Et.
    + injection H as <-; eexists _, _; split; [reflexivity|]; split; reflexivity.
  - destruct (dict_get "data" dj) as [dv|] eqn:Ed.
    + destruct dv; try (injection H as <-; eexists _, _; split; [reflexivity|]; split; [reflexivity|reflexivity]).
      destruct (traverse (clean_data_item fl rp) l) as [ys|] eqn:Et; [|discriminate H].
      injection H as <-. eexists _, _. split; [reflexivity|]. split; [reflexivity|].
      exists ys. split; [reflexivity|]. apply traverse_Forall2. exact Et.
    + injection H as <-; eexists _, _; split; [reflexivity|]; split; reflexivity.
Qed.

Lemma normalize_keeps_items_witness :
  clean_json_structure f0 r0 (VDict (dict_of doc1)) = Some doc1_clean /\
  exists d l', doc1_clean = VDict d /\ dict_get "data" d = Some (VList l') /\
    match dict_get "data" (dict_of doc1) with
    | Some (VList l) => exists ys, l' = map VDict ys /\
                          Forall2 (fun x y => clean_data_item f0 r0 x = Some y) l ys
    | _ => l' = []
    end.
Proof.
  split; [vm_compute; reflexivity|].
  apply (normalize_keeps_items f0 r0 (dict_of doc1) doc1_clean). vm_compute. reflexivity.
Defined.

End ExtraDataClaims.

(** ** Further properties of the viewport calculator *)
Module ExtraMapClaims.

Import MapUtils MapUtilsFacts MapMoreFacts.
Local Open Scope R_scope.

(** X17: [calculate_distance] is never negative, does not depend on the
    order of its two points and is 0 from a point to itself. *)
Theorem distance_metric la1 g1 la2 g2 :
  0 <= calculate_distance la1 g1 la2 g2 /\
  calculate_distance la1 g1 la2 g2 = calculate_distance la2 g2 la1 g1 /\
  calculate_distance la1 g1 la1 g1 = 0.
Proof.
  split; [apply distance_nonneg|]. split; [apply distance_sym|apply distance_self].
Qed.

(** X18: whatever the points and the padding factor, [calculate_zoom_level]
    returns 10, 15 or 16, never another level of the table. *)
Theorem zoom_level_any_input (pts : list point) (pad : R) :
  calculate_zoom_level pts pad = 10%Z \/ calculate_zoom_level pts pad = 15%Z \/
  calculate_zoom_level pts pad = 16%Z.
Proof.
  unfold calculate_zoom_level. destruct (calculate_bounds pts); [|auto].
  destruct (length (filter lat_nonzero pts) <=? 1)%nat; [auto|].
  destruct (scan_zoom_values (calculate_distance (min_lat b) (min_lng b) (max_lat b) (max_lng b) * pad)); auto.
Qed.

(** X19: whatever the points and the three offsets, the zoom list of
    [calculate_map_config] is [[initial, min, max]] with
    3 <= min <= initial <= max <= 20. *)
Theorem map_config_zoom_ordered pts io mo xo :
  exists i mn mx, zoom (calculate_map_config pts io mo xo) = [i; mn; mx] /\
    (3 <= mn <= i)%Z /\ (i <= mx <= 20)%Z.
Proof.
  unfold calculate_map_config. cbv zeta. cbn [zoom].
  do 3 eexists. split; [reflexivity|]. lia.
Qed.



End ExtraMapClaims.
